(** * kgexpr.data: loading, batching and tiling of triple indexes

    A shallow embedding of [kgexpr/data/__init__.py].  Python integers are
    [Z]; a one-dimensional [np.int64] array is a [list Z]; a Python
    exception is a constructor of [exn] and every call that may raise
    returns a [result]. *)

From Stdlib Require Import ZArith Lia Ascii String SpecFloat.
From stdpp Require Import base option list numbers strings gmap.

Set Warnings "-clear-no-such-hyp".

Open Scope Z_scope.

(** ** Python exceptions and results *)

Module Py.

(** The messages of the [RuntimeError]s raised in the module. *)
Inductive runtime_msg :=
| DatasetTypeDoesntExist     (* "DatasetType doesn't exists. It's ..." *)
| ArangeTargetWrongValue     (* "arange_target is set to wrong value. ..." *)
| MiracleHappened            (* "Miracle happened. arange_target passed ..." *)
| AllKnown.                  (* "head, relation, tail are known." *)

(** The causes of the [ValueError]s of the builtins and of numpy. *)
Inductive value_msg :=
| EmptySequence              (* max() arg is an empty sequence *)
| UnpackShape                (* not enough / too many values to unpack *)
| NegativeDimensions         (* negative dimensions are not allowed *)
| CannotReshape              (* cannot reshape array of size n into shape s *)
| FloatNaN.                  (* cannot convert float NaN to integer *)

Inductive exn :=
| AssertionError
| ValueError (m : value_msg)
| RuntimeError (m : runtime_msg)
| StopIteration
| NameError (name : string)
| KeyError (key : string)
| AttributeError (name : string)
| OverflowError
| ZeroDivisionError
| OSError.

Inductive result (A : Type) :=
| Ok (a : A)
| Raise (e : exn).
Arguments Ok {A} a.
Arguments Raise {A} e.

Definition bind {A B} (m : result A) (f : A → result B) : result B :=
  match m with Ok a => f a | Raise e => Raise e end.

#[export] Instance result_ret : MRet result := @Ok.
#[export] Instance result_bind : MBind result := λ A B f m, bind m f.

(** [assert b] *)
Definition assert (b : bool) : result unit :=
  if b then Ok tt else Raise AssertionError.

(** [max(iterable, key=key)]: the first element whose key is maximal;
    the running best is replaced only by a strictly larger key. *)
Fixpoint max_from {A} (key : A → Z) (best : A) (l : list A) : A :=
  match l with
  | [] => best
  | x :: l' => max_from key (if key best <? key x then x else best) l'
  end.

Definition max {A} (key : A → Z) (l : list A) : result A :=
  match l with
  | [] => Raise (ValueError EmptySequence)
  | x :: l' => Ok (max_from key x l')
  end.

(** [max(a, b)] on two integers. *)
Definition max2 (a b : Z) : Z := if a <? b then b else a.

(** [os.path.join(a, b)] for a relative [b] (posixpath). *)
Definition ends_with_slash (a : string) : bool :=
  match String.rev a with
  | String c _ => bool_decide (c = "/"%char)
  | EmptyString => false
  end.

Definition path_join (a b : string) : string :=
  if bool_decide (a = "") || ends_with_slash a then a +:+ b
  else a +:+ "/" +:+ b.

End Py.
Import Py.

Notation "x <- m ; k" := (Py.bind m (λ x, k))
  (at level 20, m at level 100, k at level 200, only parsing).
Notation "' pat <- m ; k" := (Py.bind m (λ x, match x with pat => k end))
  (at level 20, pat pattern, m at level 100, k at level 200, only parsing).

(** ** kgedata: the triple record of the C++ extension *)

Module kgedata.

Record TripleIndex := { head : Z; relation : Z; tail : Z }.

End kgedata.
Import kgedata.

(** ** TripleSource *)

Record TripleSource := {
  data_dir : string;
  _train_set : list TripleIndex;
  _valid_set : list TripleIndex;
  _test_set : list TripleIndex;
  _num_entity : Z;
  _num_relation : Z;
}.

Definition TRAIN_FILENAME : string := "train.txt".
Definition VALID_FILENAME : string := "valid.txt".
Definition TEST_FILENAME : string := "test.txt".

Definition train_set (self : TripleSource) := _train_set self.
Definition valid_set (self : TripleSource) := _valid_set self.
Definition test_set (self : TripleSource) := _test_set self.
Definition num_entity (self : TripleSource) := _num_entity self.
Definition num_relation (self : TripleSource) := _num_relation self.

Section TripleSource.

(** [kgekit.io.read_triple_indexes(path, triple_order, delimiter)] belongs
    to another package: it returns the parsed triples and the number of
    lines it failed to parse, or raises. *)
Variable read_triple_indexes :
  string → string → string → result (list TripleIndex * Z).

Definition read_checked (path triple_order delimiter : string)
  : result (list TripleIndex) :=
  '(triples, num_failed) <- read_triple_indexes path triple_order delimiter;
  _ <- assert (num_failed =? 0);
  Ok triples.

(** [max([max(s, key=key) for s in sets], key=key)] *)
Definition max_over_sets (key : TripleIndex → Z)
    (sets : list (list TripleIndex)) : result TripleIndex :=
  maxima <- mapM (Py.max key) sets;
  Py.max key maxima.

Definition TripleSource_init (data_dir triple_order delimiter : string)
  : result TripleSource :=
  train <- read_checked (path_join data_dir TRAIN_FILENAME) triple_order delimiter;
  valid <- read_checked (path_join data_dir VALID_FILENAME) triple_order delimiter;
  test <- read_checked (path_join data_dir TEST_FILENAME) triple_order delimiter;
  max_head <- max_over_sets head [train; valid; test];
  max_tail <- max_over_sets tail [train; valid; test];
  let num_entity := max2 (head max_head) (tail max_tail) + 1 in
  max_relation <- max_over_sets relation [train; valid; test];
  Ok {| data_dir := data_dir;
          _train_set := train; _valid_set := valid; _test_set := test;
          _num_entity := num_entity;
          _num_relation := relation max_relation + 1 |}.

End TripleSource.

(** ** numpy: the array operations the module calls *)

Module np.

Definition int64_min : Z := - 2 ^ 63.
Definition int64_max : Z := 2 ^ 63 - 1.

Definition fits_int64 (z : Z) : bool :=
  (int64_min <=? z) && (z <=? int64_max).

(** An n-dimensional [int64] array: its shape and its items in row-major
    order. *)
Record ndarray := { shape : list Z; data : list Z }.

Definition size (shape : list Z) : Z := foldr Z.mul 1 shape.

Definition wf (a : ndarray) : Prop :=
  Forall (λ d, 0 ≤ d) (shape a) ∧ Z.of_nat (length (data a)) = size (shape a).

(** [np.array([x], dtype=np.int64)]: a Python integer outside the range of
    [int64] cannot be stored. *)
Definition array1 (x : Z) : result (list Z) :=
  if fits_int64 x then Ok [x] else Raise OverflowError.

(** [np.arange(n, dtype=np.int64)] *)
Definition arange (n : Z) : list Z := seqZ 0 n.

(** [np.tile(a, reps)] for a one-dimensional [a] and an integer [reps]. *)
Definition tile (a : list Z) (reps : Z) : result (list Z) :=
  if reps <? 0 then Raise (ValueError NegativeDimensions)
  else Ok (mjoin (replicate (Z.to_nat reps) a)).

(** [np.empty((n), dtype=np.int64)]; the unspecified contents are read as
    zeros. *)
Definition empty (n : Z) : result (list Z) :=
  if n <? 0 then Raise (ValueError NegativeDimensions)
  else Ok (replicate (Z.to_nat n) 0).

(** [a, b, c = batch.shape] *)
Definition unpack3 (a : ndarray) : result (Z * Z * Z) :=
  match shape a with
  | [x; y; z] => Ok (x, y, z)
  | _ => Raise (ValueError UnpackShape)
  end.

(** Item [k] of [np.split(batch, sections, axis=2)] for a batch of shape
    [(b, s, e)] cut into [sections = e] parts: the sub-array
    [batch[:, :, k:k+1]] of shape [(b, s, 1)]. *)
Definition section (b s e : Z) (batch : ndarray) (k : nat) : ndarray :=
  {| shape := [b; s; 1];
     data := (λ r, data batch !!! (r * Z.to_nat e + k)%nat)
               <$> seq 0 (Z.to_nat (b * s)) |}.

(** [np.split(batch, sections, axis=2)] with [sections] the length of the
    last axis; [N % sections] is computed first. *)
Definition split_axis2 (batch : ndarray) (b s e sections : Z)
  : result (list ndarray) :=
  if sections =? 0 then Raise ZeroDivisionError
  else Ok (section b s e batch <$> seq 0 (Z.to_nat sections)).

(** [a.reshape(newshape)] *)
Definition reshape (a : ndarray) (newshape : list Z) : result ndarray :=
  if forallb (λ d, 0 <=? d) newshape
     && (size newshape =? Z.of_nat (length (data a)))
  then Ok {| shape := newshape; data := data a |}
  else Raise (ValueError CannotReshape).

End np.

(** ** kgexpr.data.constants *)

Module constants.

(** Modelled from the spec: [kgexpr/data/constants.py] is not among the
    sources.  The target of an expansion is one of head, relation, tail. *)
Inductive TripleElement := HEAD | RELATION | TAIL.

(** Modelled from the spec: the dataset types of [constants.DatasetType];
    the module names TRAINING, VALIDATION and TESTING. *)
Inductive DatasetType := TRAINING | VALIDATION | TESTING.

(** Modelled from the spec: the tags [HEAD_KEY], [RELATION_KEY] and
    [TAIL_KEY] identify which field was queried. *)
Inductive prediction_key := HEAD_KEY | RELATION_KEY | TAIL_KEY.

#[export] Instance TripleElement_eq_dec : EqDecision TripleElement.
Proof. solve_decision. Defined.
#[export] Instance DatasetType_eq_dec : EqDecision DatasetType.
Proof. solve_decision. Defined.

End constants.
Import constants.

(** A Python value passed where the module expects a member of one of the
    enumerations of [constants]; callers can pass anything. *)
Inductive value :=
| VElement (e : TripleElement)
| VDatasetType (d : DatasetType)
| VInt (z : Z)
| VStr (s : string)
| VNone.

#[export] Instance value_eq_dec : EqDecision value.
Proof. solve_decision. Defined.

(** [a == b] *)
Definition py_eq (a b : value) : bool := bool_decide (a = b).

(** Modelled from the spec: [constants.TripleElement.has_value], the
    validation of a target field, is not among the sources; a target is
    valid when it is one of head, relation, tail. *)
Definition has_value (v : value) : bool :=
  match v with VElement _ => true | _ => false end.

(** ** get_triples_from_batch *)

(** A generator expression: its items are computed one by one when it is
    consumed, and the first exception ends the consumption. *)
Definition generator (A : Type) := list (result A).

(** [list(gen)], or unpacking the generator. *)
Definition consume {A} (g : generator A) : result (list A) := mapM id g.

Definition get_triples_from_batch (batch : np.ndarray)
  : result (generator np.ndarray) :=
  '(batch_size, num_samples, num_element) <- np.unpack3 batch;
  elements <- np.split_axis2 batch batch_size num_samples num_element num_element;
  if num_samples <=? 1 then
    Ok ((λ e, np.reshape e [batch_size]) <$> elements)
  else
    Ok ((λ e, np.reshape e [batch_size; num_samples]) <$> elements).

(** ** expand_triple_to_sets *)

(** [np.tile(np.array([x], dtype=np.int64), n)] *)
Definition tiled (x n : Z) : result (list Z) :=
  a <- np.array1 x; np.tile a n.

Definition expand_triple_to_sets (triple : Z * Z * Z) (num_expands : Z)
    (arange_target : value) : result (list Z * list Z * list Z) :=
  if negb (has_value arange_target) then
    Raise (RuntimeError ArangeTargetWrongValue)
  else
    let '(h, r, t) := triple in
    if py_eq arange_target (VElement HEAD) then
      let h := np.arange num_expands in
      r <- tiled r num_expands;
      t <- tiled t num_expands;
      Ok (h, r, t)
    else if py_eq arange_target (VElement RELATION) then
      h <- tiled h num_expands;
      let r := np.arange num_expands in
      t <- tiled t num_expands;
      Ok (h, r, t)
    else if py_eq arange_target (VElement TAIL) then
      h <- tiled h num_expands;
      r <- tiled r num_expands;
      let t := np.arange num_expands in
      Ok (h, r, t)
    else
      Raise (RuntimeError MiracleHappened).

(** ** Python numbers: integers and binary64 floats *)

Module Float64.



Definition prec : Z := 53.
Definition emax : Z := 1024.

(** [float(z)]: rounded to nearest even; "int too large to convert to
    float" when the rounding overflows. *)
Definition of_int (z : Z) : result spec_float :=
  match binary_normalize prec emax z 0 false with
  | S754_infinity _ => Raise OverflowError
  | f => Ok f
  end.

Definition mul (x y : spec_float) : spec_float := SFmul prec emax x y.

(** [int(f)]: truncation towards zero. *)
Definition to_int (f : spec_float) : result Z :=
  match f with
  | S754_zero _ => Ok 0
  | S754_infinity _ => Raise OverflowError
  | S754_nan => Raise (ValueError FloatNaN)
  | S754_finite s m e =>
      let a := if 0 <=? e then Z.pos m * 2 ^ e else Z.pos m `quot` 2 ^ (- e) in
      Ok (if s then - a else a)
  end.

End Float64.

Inductive number :=
| PyInt (z : Z)
| PyFloat (f : spec_float).

(** [a * b] for an integer [a]. *)
Definition int_mul (a : Z) (b : number) : result number :=
  match b with
  | PyInt z => Ok (PyInt (a * z))
  | PyFloat f => x <- Float64.of_int a; Ok (PyFloat (Float64.mul x f))
  end.

(** [int(x)] *)
Definition py_int (x : number) : result Z :=
  match x with
  | PyInt z => Ok z
  | PyFloat f => Float64.to_int f
  end.

(** ** The length protocol *)

Class Len (A : Type) := len : A → Z.

#[export] Instance list_len {A} : Len (list A) := λ l, Z.of_nat (length l).

(** ** TripleIndexBatchSampler *)

Module TripleIndexBatchSampler.

Section Sampler.

Context {D : Type} `{Len D}.

(** [cursor] and [max_item] exist only once [__iter__] has run. *)
Record t := {
  dataset : D;
  batch_size : Z;
  cursor : option Z;
  max_item : option Z;
}.

Definition __init__ (dataset : D) (batch_size : Z) : t :=
  {| dataset := dataset; batch_size := batch_size;
     cursor := None; max_item := None |}.

Definition __iter__ (self : t) : t :=
  {| dataset := dataset self; batch_size := batch_size self;
     cursor := Some 0; max_item := Some (len (dataset self)) |}.

(** [__len__]; [//] is floor division. *)
Definition __len__ (self : t) : Z :=
  (len (dataset self) + batch_size self - 1) `div` batch_size self.

Definition set_cursor (self : t) (c : Z) : t :=
  {| dataset := dataset self; batch_size := batch_size self;
     cursor := Some c; max_item := max_item self |}.

Definition getattr (name : string) (field : option Z) : result Z :=
  match field with
  | Some v => Ok v
  | None => Raise (AttributeError name)
  end.

(** [for i in range(n): batch[i] = start + i]; every [i] is within
    the bounds of [batch], whose length is [n]. *)
Definition fill (n start : Z) (batch : list Z) : list Z :=
  foldl (λ b i, <[i := start + Z.of_nat i]> b) batch (seq 0 (Z.to_nat n)).

(** [__next__]: the result and the sampler afterwards. *)
Definition __next__ (self : t) : result (list Z) * t :=
  match getattr "cursor" (cursor self) with
  | Raise e => (Raise e, self)
  | Ok c =>
  match getattr "max_item" (max_item self) with
  | Raise e => (Raise e, self)
  | Ok m =>
    if c + batch_size self <? m then
      match np.empty (batch_size self) with
      | Raise e => (Raise e, self)
      | Ok batch =>
          (Ok (fill (batch_size self) c batch),
           set_cursor self (c + batch_size self))
      end
    else
      let batch_size := m - c in
      if batch_size <=? 0 then (Raise StopIteration, self)
      else
        match np.empty batch_size with
        | Raise e => (Raise e, self)
        | Ok batch =>
            (Ok (fill batch_size c batch), set_cursor self (c + batch_size))
        end
  end
  end.

(** How a [for] loop over the sampler ends. *)
Inductive ending :=
| Exhausted                (* StopIteration: the loop finishes *)
| Failed (e : exn)         (* another exception propagates *)
| StillRunning.            (* the fuel ran out first *)

(** Calling [__next__] until it raises, at most [fuel] times. *)
Fixpoint drain (fuel : nat) (self : t) : list (list Z) * ending * t :=
  match fuel with
  | O => ([], StillRunning, self)
  | S fuel' =>
      match __next__ self with
      | (Ok batch, self') =>
          let '(batches, e, final) := drain fuel' self' in
          (batch :: batches, e, final)
      | (Raise StopIteration, self') => ([], Exhausted, self')
      | (Raise e, self') => ([], Failed e, self')
      end
  end.

(** [for batch in sampler: ...] *)
Definition iterate (fuel : nat) (self : t) : list (list Z) * ending * t :=
  drain fuel (__iter__ self).

End Sampler.

Arguments t D : clear implicits.

End TripleIndexBatchSampler.

(** ** Configuration, and the samplers of kgedata *)

(** The fields of the configuration object the module reads. *)
Record Config := {
  triple_order : string;
  negative_entity : Z;
  negative_relation : Z;
  base_seed : Z;
  batch_size : Z;
  evaluation_load_factor : number;
  num_workers : Z;
  enable_cuda : bool;
}.

Inductive LCWANoThrowSamplerStrategy := Hash.

(** [kgedata.LCWANoThrowSampler(...)], as its arguments. *)
Record LCWANoThrowSampler := {
  sampler_train_set : list TripleIndex;
  sampler_num_entity : Z;
  sampler_num_relation : Z;
  sampler_negative_entity : Z;
  sampler_negative_relation : Z;
  sampler_seed : Z;
  sampler_strategy : LCWANoThrowSamplerStrategy;
}.

(** [kgedata.BernoulliCorruptor(...)], as its arguments. *)
Record BernoulliCorruptor := {
  corruptor_train_set : list TripleIndex;
  corruptor_num_relation : Z;
  corruptor_seed : Z;
}.

(** ** kgexpr.data.collators *)

Module collators.

(** Modelled from the spec: [kgexpr/data/collators.py] is not among the
    sources.  The stages are named as the module names them: stacking,
    corruption tagging, negative expansion, label attachment or its no-op
    pass-through, the final breakdown, the tiling of a triple for
    evaluation and the label of a prediction. *)
Inductive collate :=
| list_stack_collate
| CorruptionCollate (corruptor : BernoulliCorruptor)
| LCWANoThrowCollate (triple_source : TripleSource)
    (negative_sampler : LCWANoThrowSampler)
| label_collate
| none_label_collate
| BreakdownCollator (config : Config)
| TripleTileCollate (config : Config) (triple_source : TripleSource)
| label_prediction_collate.

End collators.
Import collators.

(** ** torchvision.transforms.Compose *)

Module transforms.

Record Compose := { stages : list collate }.

(** [Compose.__call__]: [for t in self.transforms: img = t(img)]. *)
Definition call {B} (apply : collate → B → result B) (c : Compose) (img : B)
  : result B :=
  foldl (λ acc t, x <- acc; apply t x) (Ok img) (stages c).

End transforms.

(** ** TripleIndexesDataset and create_dataloader *)

Definition _SAFE_MINIMAL_BATCH_SIZE : Z := 1.
Definition SEED_OFFSET : Z := 100.

Section Dataset.

(** What [transformers.OrderedTripleListTransform(order)] makes of a list
    of triples; the transformers are not among the sources. *)
Context {T : Type} `{Len T}.
Variable OrderedTripleListTransform : string → list TripleIndex → result T.

(** [self.triples] is the chosen set, or what the transform made of it. *)
Inductive triples_of :=
| Plain (l : list TripleIndex)
| Transformed (x : T).

Record TripleIndexesDataset := {
  triples : triples_of;
  transform : option (list TripleIndex → result T);
}.

Definition TripleIndexesDataset_init (triple_source : TripleSource)
    (dataset_type : value)
    (transform : option (list TripleIndex → result T))
  : result TripleIndexesDataset :=
  triples <-
    (if py_eq dataset_type (VDatasetType TRAINING) then
       Ok (train_set triple_source)
     else if py_eq dataset_type (VDatasetType VALIDATION) then
       Ok (valid_set triple_source)
     else if py_eq dataset_type (VDatasetType TESTING) then
       Ok (test_set triple_source)
     else Raise (RuntimeError DatasetTypeDoesntExist));
  match transform with
  | Some f =>
      x <- f triples;
      Ok {| triples := Transformed x; transform := transform |}
  | None => Ok {| triples := Plain triples; transform := transform |}
  end.

#[export] Instance dataset_len : Len TripleIndexesDataset := λ self,
  match triples self with
  | Plain l => len l
  | Transformed x => len x
  end.

(** The keyword arguments [create_dataloader] passes to
    [torch.utils.data.DataLoader]. *)
Record DataLoaderArgs := {
  loader_dataset : TripleIndexesDataset;
  batch_sampler : TripleIndexBatchSampler.t TripleIndexesDataset;
  loader_num_workers : Z;
  pin_memory : bool;
  collate_fn : transforms.Compose;
}.

(** The constructor of torch's [DataLoader]. *)
Context {DataLoader : Type}.
Variable torch_DataLoader : DataLoaderArgs → result DataLoader.

(** [create_dataloader] up to the call of [DataLoader]. *)
Definition dataloader_args (triple_source : TripleSource) (config : Config)
    (collates_label : bool) (dataset_type : value) : result DataLoaderArgs :=
  dataset <- TripleIndexesDataset_init triple_source dataset_type
               (Some (OrderedTripleListTransform (triple_order config)));
  '(collates, batch_size) <-
    (if py_eq dataset_type (VDatasetType TRAINING) then
       let negative_sampler :=
         {| sampler_train_set := train_set triple_source;
            sampler_num_entity := num_entity triple_source;
            sampler_num_relation := num_relation triple_source;
            sampler_negative_entity := negative_entity config;
            sampler_negative_relation := negative_relation config;
            sampler_seed := base_seed config;
            sampler_strategy := Hash |} in
       let corruptor :=
         {| corruptor_train_set := train_set triple_source;
            corruptor_num_relation := num_relation triple_source;
            corruptor_seed := base_seed config + SEED_OFFSET |} in
       let collates :=
         [ list_stack_collate;
           CorruptionCollate corruptor;
           LCWANoThrowCollate triple_source negative_sampler ] in
       let collates :=
         if collates_label then collates ++ [label_collate]
         else collates ++ [none_label_collate] in
       let batch_size := batch_size config in
       let collates := collates ++ [BreakdownCollator config] in
       Ok (collates, batch_size)
     else
       scaled <- int_mul (batch_size config) (evaluation_load_factor config);
       n <- py_int scaled;
       let batch_size := max2 _SAFE_MINIMAL_BATCH_SIZE n in
       let collates := [TripleTileCollate config triple_source] in
       let collates :=
         if collates_label then collates ++ [label_prediction_collate]
         else collates in
       Ok (collates, batch_size));
  let collate_fn := {| transforms.stages := collates |} in
  let batch_sampler := TripleIndexBatchSampler.__init__ dataset batch_size in
  Ok {| loader_dataset := dataset;
        batch_sampler := batch_sampler;
        loader_num_workers := num_workers config;
        pin_memory := true;
        collate_fn := collate_fn |}.

Definition create_dataloader (triple_source : TripleSource) (config : Config)
    (collates_label : bool) (dataset_type : value) : result DataLoader :=
  args <- dataloader_args triple_source config collates_label dataset_type;
  torch_DataLoader args.

End Dataset.

(** ** sieve_and_expand_triple *)

(** The array-valued names bound in the namespace of the module.  The module
    binds its imports, its classes and functions and the two integers
    [_SAFE_MINIMAL_BATCH_SIZE] and [SEED_OFFSET]: no array, and no name
    [batch]. *)
Definition module_globals : gmap string np.ndarray := ∅.

(** Reading a name that is not local to the function. *)
Definition load_global (globals : gmap string np.ndarray) (name : string)
  : result np.ndarray :=
  match globals !! name with
  | Some v => Ok v
  | None => Raise (NameError name)
  end.

(** [d[key]] on a dictionary. *)
Definition getitem (d : gmap string Z) (key : string) : result Z :=
  match d !! key with
  | Some v => Ok v
  | None => Raise (KeyError key)
  end.

Definition query_result : Type :=
  (list Z * list Z * list Z) * prediction_key * TripleIndex.

(** The function in a namespace [globals]; [batch] is not one of its
    parameters, so the first statement reads it from the module. *)
Definition sieve_and_expand_triple_in (globals : gmap string np.ndarray)
    (triple_source : TripleSource) (entities relations : gmap string Z)
    (head relation tail : string) : result query_result :=
  batch <- load_global globals "batch";
  '(batch_size, num_samples, num_element) <- np.unpack3 batch;
  elements <- np.split_axis2 batch batch_size num_samples num_element num_element;
  if bool_decide (head = "?") then
    r <- getitem relations relation;
    t <- getitem entities tail;
    let triple_index := Build_TripleIndex (-1) r t in
    let h := np.arange (num_entity triple_source) in
    r <- tiled r (num_entity triple_source);
    t <- tiled t (num_entity triple_source);
    Ok ((h, r, t), HEAD_KEY, triple_index)
  else if bool_decide (relation = "?") then
    h <- getitem entities head;
    t <- getitem entities tail;
    let triple_index := Build_TripleIndex h (-1) t in
    h <- tiled h (num_relation triple_source);
    let r := np.arange (num_relation triple_source) in
    t <- tiled t (num_relation triple_source);
    Ok ((h, r, t), RELATION_KEY, triple_index)
  else if bool_decide (tail = "?") then
    r <- getitem relations relation;
    h <- getitem entities head;
    let triple_index := Build_TripleIndex h r (-1) in
    h <- tiled h (num_entity triple_source);
    r <- tiled r (num_entity triple_source);
    let t := np.arange (num_entity triple_source) in
    Ok ((h, r, t), TAIL_KEY, triple_index)
  else
    Raise (RuntimeError AllKnown).

Definition sieve_and_expand_triple :=
  sieve_and_expand_triple_in module_globals.

(** ** Vocabulary of the statements *)

(** [m] is the largest item of [l]. *)
Definition is_maximum (m : Z) (l : list Z) : Prop :=
  m ∈ l ∧ ∀ x, x ∈ l → x ≤ m.

(** The entity ids of a set of triples, in head and in tail position. *)
Definition entity_ids (l : list TripleIndex) : list Z :=
  (head <$> l) ++ (tail <$> l).

Definition relation_ids (l : list TripleIndex) : list Z := relation <$> l.

(** A parser over a directory holding the three files. *)
Definition example_train : list TripleIndex :=
  [ Build_TripleIndex 0 0 1; Build_TripleIndex 1 1 2 ].
Definition example_valid : list TripleIndex := [ Build_TripleIndex 2 0 0 ].
Definition example_test : list TripleIndex := [ Build_TripleIndex 1 1 0 ].

Definition example_reader (path triple_order delimiter : string)
  : result (list TripleIndex * Z) :=
  if bool_decide (path = "triples/train.txt") then Ok (example_train, 0)
  else if bool_decide (path = "triples/valid.txt") then Ok (example_valid, 0)
  else if bool_decide (path = "triples/test.txt") then Ok (example_test, 0)
  else Raise OSError.

(** The same directory with one unparsable line in [valid.txt]. *)
Definition failing_reader (path triple_order delimiter : string)
  : result (list TripleIndex * Z) :=
  if bool_decide (path = "triples/valid.txt") then Ok (example_valid, 1)
  else example_reader path triple_order delimiter.

(** The same directory with an empty [test.txt]. *)
Definition empty_test_reader (path triple_order delimiter : string)
  : result (list TripleIndex * Z) :=
  if bool_decide (path = "triples/test.txt") then Ok ([], 0)
  else example_reader path triple_order delimiter.

Definition example_store : TripleSource :=
  {| data_dir := "triples";
     _train_set := example_train;
     _valid_set := example_valid;
     _test_set := example_test;
     _num_entity := 3;
     _num_relation := 2 |}.

(** The three arrays of an expansion on [target]: [N] items each, the
    target's the indexes from 0, the others' the field of the triple. *)
Definition expanded (target : TripleElement) (h r t N : Z)
    (hs rs ts : list Z) : Prop :=
  length hs = Z.to_nat N ∧ length rs = Z.to_nat N ∧ length ts = Z.to_nat N ∧
  ∀ i : nat, (i < Z.to_nat N)%nat →
    hs !! i = Some (if decide (target = HEAD) then Z.of_nat i else h) ∧
    rs !! i = Some (if decide (target = RELATION) then Z.of_nat i else r) ∧
    ts !! i = Some (if decide (target = TAIL) then Z.of_nat i else t).

(** A sampler in the middle of an iteration over [L] items by [B]. *)
Definition iterating {D} (self : TripleIndexBatchSampler.t D) (c L B : Z)
  : Prop :=
  TripleIndexBatchSampler.cursor self = Some c ∧
  TripleIndexBatchSampler.max_item self = Some L ∧
  TripleIndexBatchSampler.batch_size self = B.

(** [n] is the quotient of [L] by [B] rounded up. *)
Definition is_ceil_div (n L B : Z) : Prop := (n - 1) * B < L ≤ n * B.

(** The length of the last chunk of [L] items cut by [B]. *)
Definition last_chunk_length (L B : Z) : Z :=
  if decide (L `mod` B = 0) then B else L `mod` B.

(** What the rest of an iteration yields from cursor [c]. *)
Definition rest_of_iteration {D} (c L B : Z) (chunks : list (list Z))
    (final : TripleIndexBatchSampler.t D) : Prop :=
  mjoin chunks = seqZ c (L - c) ∧
  Z.of_nat (length chunks) = (L - c + B - 1) `div` B ∧
  Forall (λ chunk, 0 < Z.of_nat (length chunk) ≤ B) chunks ∧
  (c < L → ∃ chunk, last chunks = Some chunk ∧
     Z.of_nat (length chunk) = last_chunk_length (L - c) B) ∧
  iterating final L L B.

(** What unpacking the result of [get_triples_from_batch] gives on a batch of
    shape [(b, s, e)]: [e] arrays, array [k] holding [batch[i, j, k]] at
    [(i, j)], of shape [(b,)] when [s <= 1] and of shape [(b, s)]
    otherwise. *)
Definition returns_columns (batch : np.ndarray) (b s e : Z) : Prop :=
  ∃ arrays,
    Py.bind (get_triples_from_batch batch) consume = Ok arrays ∧
    Z.of_nat (length arrays) = e ∧
    ∀ (k : nat) (a : np.ndarray), arrays !! k = Some a →
      np.shape a = (if decide (s ≤ 1) then [b] else [b; s]) ∧
      ∀ i j : nat, Z.of_nat i < b → Z.of_nat j < s →
        np.data a !! (i * Z.to_nat s + j)%nat
        = np.data batch !! ((i * Z.to_nat s + j) * Z.to_nat e + k)%nat.

(** Two rows of no sample, three elements wide. *)
Definition no_sample_batch : np.ndarray :=
  {| np.shape := [2; 0; 3]; np.data := [] |}.

(** Two rows of two samples of three elements. *)
Definition example_batch : np.ndarray :=
  {| np.shape := [2; 2; 3];
     np.data := [0; 0; 1;  0; 0; 3;  1; 1; 2;  1; 0; 2] |}.

Definition example_dataset : list Z := [10; 20; 30; 40; 50].

(** [int(config.batch_size * config.evaluation_load_factor)] *)
Definition scaled_batch_size (config : Config) : result Z :=
  scaled <- int_mul (batch_size config) (evaluation_load_factor config);
  py_int scaled.

(** The float [0.001]. *)
Definition one_thousandth : spec_float :=
  S754_finite false 4611686018427388 (-62).

Definition example_config : Config :=
  {| triple_order := "hrt";
     negative_entity := 1;
     negative_relation := 1;
     base_seed := 0;
     batch_size := 100;
     evaluation_load_factor := PyFloat one_thousandth;
     num_workers := 1;
     enable_cuda := false |}.

(** A transform that keeps the triples as they are. *)
Definition identity_transform (order : string) (l : list TripleIndex)
  : result (list TripleIndex) := Ok l.

Definition example_entities : gmap string Z := {[ "a" := 1; "b" := 2 ]}.
Definition example_relations : gmap string Z := {[ "r" := 1 ]}.

(** The set a dataset of type [d] reads. *)
Definition set_of_type (triple_source : TripleSource) (d : DatasetType)
  : list TripleIndex :=
  match d with
  | TRAINING => train_set triple_source
  | VALIDATION => valid_set triple_source
  | TESTING => test_set triple_source
  end.

(** ** TripleIndexesDataset.__getitem__ *)

(** [l[idx]] on a Python list: a negative index counts from the end, and
    [None] stands for the [IndexError] of an index out of range. *)
Definition list_getitem {A} (l : list A) (idx : Z) : option A :=
  let n := Z.of_nat (length l) in
  if 0 <=? idx then l !! Z.to_nat idx
  else if - n <=? idx then l !! Z.to_nat (n + idx)
  else None.

Section DatasetItems.

Context {T : Type} `{Len T} {R : Type}.

(** Indexing what the transform returned. *)
Variable transformed_getitem : T → Z → option R.

(** An item of a dataset: a triple of the plain list, or a row of what the
    transform made of it. *)
Inductive sample :=
| TripleSample (t : TripleIndex)
| RowSample (r : R).

(** [__getitem__]: [sample = self.triples[idx]; return sample]. *)
Definition TripleIndexesDataset_getitem (self : TripleIndexesDataset)
    (idx : Z) : option sample :=
  match triples self with
  | Plain l => TripleSample <$> list_getitem l idx
  | Transformed x => RowSample <$> transformed_getitem x idx
  end.

End DatasetItems.

(** ** np_to_tensor and convert_triple_tuple_to_torch *)

Module torch.

(** A tensor, as far as the module sets it up: the array it was made from,
    whether gradients are tracked and whether it was moved to the GPU. *)
Record Tensor := {
  array : np.ndarray;
  requires_grad : bool;
  on_cuda : bool;
}.

(** [torch.from_numpy(x)] *)
Definition from_numpy (x : np.ndarray) : Tensor :=
  {| array := x; requires_grad := false; on_cuda := false |}.

(** [x.requires_grad_(flag)] *)
Definition requires_grad_ (x : Tensor) (flag : bool) : Tensor :=
  {| array := array x; requires_grad := flag; on_cuda := on_cuda x |}.

End torch.

Section Conversion.

(** [x.cuda()]: the move to the GPU belongs to torch and may raise. *)
Variable cuda : torch.Tensor → result torch.Tensor.

Definition np_to_tensor (x : np.ndarray) (cuda_enabled : bool)
  : result torch.Tensor :=
  let x := torch.from_numpy x in
  let x := torch.requires_grad_ x false in
  if cuda_enabled then cuda x else Ok x.

Record _BatchElementConverter := { cuda_enabled : bool }.

Definition _BatchElementConverter_call (self : _BatchElementConverter)
    (x : np.ndarray) : result torch.Tensor :=
  np_to_tensor x (cuda_enabled self).

(** [tuple(map(converter, batch))]; [enable_cuda_override] is [None] or a
    flag. *)
Definition convert_triple_tuple_to_torch (batch : list np.ndarray)
    (config : Config) (enable_cuda_override : option bool)
  : result (list torch.Tensor) :=
  let converter :=
    match enable_cuda_override with
    | Some flag => {| cuda_enabled := flag |}
    | None => {| cuda_enabled := enable_cuda config |}
    end in
  mapM (_BatchElementConverter_call converter) batch.

End Conversion.

(** ** Vocabulary of the further statements *)

(** A store without its directory. *)
Definition contents (s : TripleSource)
  : list TripleIndex * list TripleIndex * list TripleIndex * Z * Z :=
  (train_set s, valid_set s, test_set s, num_entity s, num_relation s).

(** A tensor left on the CPU, tracking no gradient. *)
Definition cpu_tensor (x : np.ndarray) : torch.Tensor :=
  {| torch.array := x; torch.requires_grad := false; torch.on_cuda := false |}.

(** The flag [convert_triple_tuple_to_torch] acts on. *)
Definition effective_cuda (config : Config) (override : option bool) : bool :=
  match override with Some flag => flag | None => enable_cuda config end.

(** A move to the GPU on a machine without one. *)
Definition no_cuda (x : torch.Tensor) : result torch.Tensor :=
  Raise AssertionError.

(** A namespace in which [batch] is bound. *)
Definition globals_with_batch : gmap string np.ndarray :=
  {[ "batch" := example_batch ]}.

(** The example directory with its rows in another order and in other
    files. *)
Definition shuffled_reader (path triple_order delimiter : string)
  : result (list TripleIndex * Z) :=
  if bool_decide (path = "triples/train.txt") then
    Ok ([Build_TripleIndex 1 1 2; Build_TripleIndex 2 0 0], 0)
  else if bool_decide (path = "triples/valid.txt") then
    Ok ([Build_TripleIndex 1 1 0], 0)
  else if bool_decide (path = "triples/test.txt") then
    Ok ([Build_TripleIndex 0 0 1], 0)
  else Raise OSError.

(** A directory whose [train.txt] has two unparsable lines and whose other
    files cannot be opened. *)
Definition train_failing_reader (path triple_order delimiter : string)
  : result (list TripleIndex * Z) :=
  if bool_decide (path = "triples/train.txt") then Ok (example_train, 2)
  else Raise OSError.

(** The directory of [train_failing_reader] with its other files in
    place. *)
Definition train_failing_reader_with_files
    (path triple_order delimiter : string) : result (list TripleIndex * Z) :=
  if bool_decide (path = "triples/train.txt") then Ok (example_train, 2)
  else example_reader path triple_order delimiter.

Definition shuffled_store : TripleSource :=
  {| data_dir := "triples";
     _train_set := [Build_TripleIndex 1 1 2; Build_TripleIndex 2 0 0];
     _valid_set := [Build_TripleIndex 1 1 0];
     _test_set := [Build_TripleIndex 0 0 1];
     _num_entity := 3;
     _num_relation := 2 |}.

(** The example configuration with a batch size of 0. *)
Definition zero_batch_config : Config :=
  {| triple_order := "hrt";
     negative_entity := 1;
     negative_relation := 1;
     base_seed := 0;
     batch_size := 0;
     evaluation_load_factor := PyInt 1;
     num_workers := 1;
     enable_cuda := false |}.

(** The example configuration with a load factor that is not a number. *)
Definition nan_factor_config : Config :=
  {| triple_order := "hrt";
     negative_entity := 1;
     negative_relation := 1;
     base_seed := 0;
     batch_size := 100;
     evaluation_load_factor := PyFloat S754_nan;
     num_workers := 1;
     enable_cuda := true |}.

(** * Proofs *)

(** ** The error monad *)

Lemma bind_Ok {A B} (m : result A) (f : A → result B) b :
  Py.bind m f = Ok b ↔ ∃ a, m = Ok a ∧ f a = Ok b.
Proof.
  destruct m as [a|e]; simpl; split.
  - eauto.
  - intros (a' & [= <-] & ?); done.
  - done.
  - intros (? & ? & ?); done.
Qed.

Lemma bind_Raise {A B} (m : result A) (f : A → result B) e :
  Py.bind m f = Raise e ↔ m = Raise e ∨ ∃ a, m = Ok a ∧ f a = Raise e.
Proof.
  destruct m as [a|e']; simpl; split.
  - eauto.
  - intros [?|(a' & [= <-] & ?)]; done.
  - intros [= ->]; eauto.
  - intros [[= ->]|(? & ? & ?)]; done.
Qed.

Lemma assert_Ok b u : assert b = Ok u ↔ b = true.
Proof. destruct b, u; simpl; split; done. Qed.

(** ** max *)

Lemma max_from_spec {A} (key : A → Z) l best :
  max_from key best l ∈ best :: l ∧
  ∀ x, x ∈ best :: l → key x ≤ key (max_from key best l).
Proof.
  revert best; induction l as [|y l IH]; intros best; simpl.
  - split; [left | intros x ->%list_elem_of_singleton; lia].
  - destruct (IH (if key best <? key y then y else best)) as [Hin Hle].
    split.
    + apply elem_of_cons in Hin as [->|Hin].
      * case_match; [right; left | left].
      * right; right; done.
    + intros x Hx.
      assert (key (if key best <? key y then y else best) ≤
              key (max_from key (if key best <? key y then y else best) l))
        as Hb by (apply Hle; left).
      apply elem_of_cons in Hx as [->|Hx];
        [|apply elem_of_cons in Hx as [->|Hx]];
        [destruct (Z.ltb_spec (key best) (key y)); lia ..|].
      apply Hle; right; done.
Qed.

Lemma max_Ok {A} (key : A → Z) l m :
  Py.max key l = Ok m → m ∈ l ∧ ∀ x, x ∈ l → key x ≤ key m.
Proof.
  destruct l as [|x l]; simpl; [done|].
  intros [= <-]. apply max_from_spec.
Qed.

Lemma max_nonempty {A} (key : A → Z) l :
  l ≠ [] → ∃ m, Py.max key l = Ok m.
Proof. destruct l; [done|]; simpl; eauto. Qed.

Lemma max_empty {A} (key : A → Z) :
  Py.max key [] = Raise (ValueError EmptySequence).
Proof. done. Qed.

Lemma mapM_max3 {A} (key : A → Z) a b c maxima :
  mapM (Py.max key) [a; b; c] = Ok maxima ↔
  ∃ ma mb mc, maxima = [ma; mb; mc] ∧
    Py.max key a = Ok ma ∧ Py.max key b = Ok mb ∧ Py.max key c = Ok mc.
Proof.
  simpl. unfold mbind, result_bind, mret, result_ret.
  destruct (Py.max key a) as [ma|], (Py.max key b) as [mb|],
    (Py.max key c) as [mc|]; simpl; split;
    try done; try (intros (? & ? & ? & ? & ? & ? & ?); done).
  - intros [= <-]. by exists ma, mb, mc.
  - intros (? & ? & ? & -> & [= <-] & [= <-] & [= <-]). done.
Qed.

Lemma max_over_sets_Ok key a b c m :
  max_over_sets key [a; b; c] = Ok m →
  (a ≠ [] ∧ b ≠ [] ∧ c ≠ []) ∧
  m ∈ a ++ b ++ c ∧ ∀ x, x ∈ a ++ b ++ c → key x ≤ key m.
Proof.
  unfold max_over_sets. intros (maxima & Hm & Hmax)%bind_Ok.
  apply mapM_max3 in Hm as (ma & mb & mc & -> & Ha & Hb & Hc).
  split; [by destruct a, b, c|].
  apply max_Ok in Ha as [Ha1 Ha2], Hb as [Hb1 Hb2], Hc as [Hc1 Hc2].
  apply max_Ok in Hmax as [Hin Hle].
  assert (key ma ≤ key m) by (apply Hle; left).
  assert (key mb ≤ key m) by (apply Hle; right; left).
  assert (key mc ≤ key m) by (apply Hle; do 2 right; left).
  split.
  - rewrite !elem_of_app.
    apply elem_of_cons in Hin as [->|Hin]; [tauto|].
    apply elem_of_cons in Hin as [->|Hin]; [tauto|].
    apply list_elem_of_singleton in Hin as ->; tauto.
  - intros x [Hx|[Hx|Hx]%elem_of_app]%elem_of_app.
    + specialize (Ha2 _ Hx). lia.
    + specialize (Hb2 _ Hx). lia.
    + specialize (Hc2 _ Hx). lia.
Qed.

Lemma max_over_sets_nonempty key a b c :
  a ≠ [] → b ≠ [] → c ≠ [] → ∃ m, max_over_sets key [a; b; c] = Ok m.
Proof.
  destruct a, b, c; try done. intros _ _ _.
  unfold max_over_sets; simpl. eauto.
Qed.

Lemma max_over_sets_empty key a b c :
  a = [] ∨ b = [] ∨ c = [] →
  max_over_sets key [a; b; c] = Raise (ValueError EmptySequence).
Proof.
  unfold max_over_sets. intros Hempty.
  destruct a, b, c; simpl; try done; destruct Hempty as [?|[?|?]]; done.
Qed.

(** ** TripleSource *)

Section TripleSourceFacts.

Variable read : string → string → string → result (list TripleIndex * Z).

Lemma read_checked_Ok path ord delim triples :
  read_checked read path ord delim = Ok triples ↔
  read path ord delim = Ok (triples, 0).
Proof.
  unfold read_checked.
  destruct (read path ord delim) as [[l n]|e]; simpl; [|done].
  destruct (Z.eqb_spec n 0) as [->|Hn]; simpl; split;
    try done; naive_solver.
Qed.

Lemma read_checked_failed path ord delim triples n :
  read path ord delim = Ok (triples, n) → n ≠ 0 →
  read_checked read path ord delim = Raise AssertionError.
Proof.
  unfold read_checked. intros -> Hn; simpl.
  by destruct (Z.eqb_spec n 0).
Qed.

(** What a successful construction has read and stored. *)
Lemma TripleSource_init_Ok dir ord delim s :
  TripleSource_init read dir ord delim = Ok s →
  read (path_join dir TRAIN_FILENAME) ord delim = Ok (train_set s, 0) ∧
  read (path_join dir VALID_FILENAME) ord delim = Ok (valid_set s, 0) ∧
  read (path_join dir TEST_FILENAME) ord delim = Ok (test_set s, 0) ∧
  (train_set s ≠ [] ∧ valid_set s ≠ [] ∧ test_set s ≠ []) ∧
  ∃ mh mt mr,
    max_over_sets head [train_set s; valid_set s; test_set s] = Ok mh ∧
    max_over_sets tail [train_set s; valid_set s; test_set s] = Ok mt ∧
    max_over_sets relation [train_set s; valid_set s; test_set s] = Ok mr ∧
    num_entity s = max2 (head mh) (tail mt) + 1 ∧
    num_relation s = relation mr + 1.
Proof.
  unfold TripleSource_init.
  intros (tr & Htr & (va & Hva & (te & Hte & (mh & Hmh & (mt & Hmt &
    (mr & Hmr & [= <-])%bind_Ok)%bind_Ok)%bind_Ok)%bind_Ok)%bind_Ok)%bind_Ok.
  apply read_checked_Ok in Htr, Hva, Hte. simpl.
  destruct (max_over_sets_Ok _ _ _ _ _ Hmh) as [Hne _].
  repeat split; try done; try tauto.
  exists mh, mt, mr. done.
Qed.

(** Three files parsed without a failure and none of them empty make a
    store. *)
Lemma TripleSource_init_loads dir ord delim tr va te :
  read (path_join dir TRAIN_FILENAME) ord delim = Ok (tr, 0) →
  read (path_join dir VALID_FILENAME) ord delim = Ok (va, 0) →
  read (path_join dir TEST_FILENAME) ord delim = Ok (te, 0) →
  tr ≠ [] → va ≠ [] → te ≠ [] →
  ∃ s, TripleSource_init read dir ord delim = Ok s ∧
       train_set s = tr ∧ valid_set s = va ∧ test_set s = te.
Proof.
  intros Htr Hva Hte ? ? ?.
  apply read_checked_Ok in Htr, Hva, Hte.
  unfold TripleSource_init. rewrite Htr, Hva, Hte; simpl.
  destruct (max_over_sets_nonempty head tr va te) as [mh ->]; try done.
  destruct (max_over_sets_nonempty tail tr va te) as [mt ->]; try done.
  destruct (max_over_sets_nonempty relation tr va te) as [mr ->]; try done.
  simpl. eauto.
Qed.

End TripleSourceFacts.

Lemma elem_of_entity_ids x l :
  x ∈ entity_ids l ↔ ∃ y, y ∈ l ∧ (x = head y ∨ x = tail y).
Proof.
  unfold entity_ids. rewrite elem_of_app, !list_elem_of_fmap. naive_solver.
Qed.

Lemma elem_of_relation_ids x l :
  x ∈ relation_ids l ↔ ∃ y, y ∈ l ∧ x = relation y.
Proof. unfold relation_ids. rewrite list_elem_of_fmap. naive_solver. Qed.

Lemma is_maximum_unique m m' l : is_maximum m l → is_maximum m' l → m = m'.
Proof. intros [Hin Hle] [Hin' Hle']. specialize (Hle _ Hin'). specialize (Hle' _ Hin). lia. Qed.


(** C1. In every store that [TripleSource] has loaded, [num_entity] is one
    more than the largest entity id, in head or in tail position, of the
    train, valid and test sets together, and [num_relation] is one more than
    their largest relation id.  In particular, a store whose train set is
    [(0,0,1), (1,1,2)] and whose valid and test sets hold no larger id has
    [num_entity = 3] and [num_relation = 2]. *)
Theorem num_entity_num_relation_of_loaded_store
    (read : string → string → string → result (list TripleIndex * Z))
    (dir ord delim : string) (s : TripleSource) :
  TripleSource_init read dir ord delim = Ok s →
  is_maximum (num_entity s - 1)
    (entity_ids (train_set s ++ valid_set s ++ test_set s)) ∧
  is_maximum (num_relation s - 1)
    (relation_ids (train_set s ++ valid_set s ++ test_set s)) ∧
  (train_set s = [Build_TripleIndex 0 0 1; Build_TripleIndex 1 1 2] →
   (∀ x, x ∈ entity_ids (valid_set s ++ test_set s) → x ≤ 2) →
   (∀ x, x ∈ relation_ids (valid_set s ++ test_set s) → x ≤ 1) →
   num_entity s = 3 ∧ num_relation s = 2).
Proof.
  intros Hinit.
  destruct (TripleSource_init_Ok _ _ _ _ _ Hinit)
    as (_ & _ & _ & _ & mh & mt & mr & Hmh & Hmt & Hmr & -> & ->).
  apply max_over_sets_Ok in Hmh as (_ & Hh_in & Hh_le).
  apply max_over_sets_Ok in Hmt as (_ & Ht_in & Ht_le).
  apply max_over_sets_Ok in Hmr as (_ & Hr_in & Hr_le).
  set (all := train_set s ++ valid_set s ++ test_set s) in *.
  assert (is_maximum (max2 (head mh) (tail mt) + 1 - 1) (entity_ids all))
    as Hentity.
  { split.
    - apply elem_of_entity_ids. unfold max2.
      destruct (Z.ltb_spec (head mh) (tail mt));
        [exists mt | exists mh]; split; try done; [right | left]; lia.
    - intros x (y & Hy & [-> | ->])%elem_of_entity_ids; unfold max2;
        specialize (Hh_le _ Hy); specialize (Ht_le _ Hy);
        destruct (Z.ltb_spec (head mh) (tail mt)); lia. }
  assert (is_maximum (relation mr + 1 - 1) (relation_ids all)) as Hrelation.
  { split.
    - apply elem_of_relation_ids. exists mr; split; [done | lia].
    - intros x (y & Hy & ->)%elem_of_relation_ids.
      specialize (Hr_le _ Hy). lia. }
  split; [done | split; [done |]].
  intros Htrain Hentities Hrelations.
  assert (is_maximum 2 (entity_ids all)) as H2.
  { split.
    - apply elem_of_entity_ids. exists (Build_TripleIndex 1 1 2).
      split; [| by right]. subst all. rewrite Htrain. set_solver.
    - intros x (y & Hy & Hx)%elem_of_entity_ids.
      subst all. rewrite Htrain in Hy.
      apply elem_of_app in Hy as [Hy | Hy].
      + apply elem_of_cons in Hy as [-> | Hy];
          [| apply list_elem_of_singleton in Hy as ->]; simpl in Hx; lia.
      + apply Hentities, elem_of_entity_ids. eauto. }
  assert (is_maximum 1 (relation_ids all)) as H1.
  { split.
    - apply elem_of_relation_ids. exists (Build_TripleIndex 1 1 2).
      split; [| done]. subst all. rewrite Htrain. set_solver.
    - intros x (y & Hy & Hx)%elem_of_relation_ids.
      subst all. rewrite Htrain in Hy.
      apply elem_of_app in Hy as [Hy | Hy].
      + apply elem_of_cons in Hy as [-> | Hy];
          [| apply list_elem_of_singleton in Hy as ->]; simpl in Hx; lia.
      + apply Hrelations, elem_of_relation_ids. eauto. }
  pose proof (is_maximum_unique _ _ _ Hentity H2).
  pose proof (is_maximum_unique _ _ _ Hrelation H1).
  unfold num_entity, num_relation in *. lia.
Qed.

Lemma num_entity_num_relation_of_loaded_store_witness :
  TripleSource_init example_reader "triples" "hrt" " " = Ok example_store ∧
  is_maximum (num_entity example_store - 1)
    (entity_ids (train_set example_store ++ valid_set example_store
                 ++ test_set example_store)) ∧
  is_maximum (num_relation example_store - 1)
    (relation_ids (train_set example_store ++ valid_set example_store
                   ++ test_set example_store)) ∧
  (train_set example_store = [Build_TripleIndex 0 0 1; Build_TripleIndex 1 1 2] →
   (∀ x, x ∈ entity_ids (valid_set example_store ++ test_set example_store) →
         x ≤ 2) →
   (∀ x, x ∈ relation_ids (valid_set example_store ++ test_set example_store) →
         x ≤ 1) →
   num_entity example_store = 3 ∧ num_relation example_store = 2).
Proof.
  split; [reflexivity |].
  apply (num_entity_num_relation_of_loaded_store
           example_reader "triples" "hrt" " " example_store).
  reflexivity.
Defined.

(** C5. Loading fails when a line of a file could not be parsed: the
    assertion on the reader's count of failures raises (the spec's
    ParseError), whatever else the files hold.  With no failure counted,
    loading fails when a file yielded no row: the maximum of an empty set
    raises [ValueError] (the spec's IntegrityError).  A store is built only
    from three files without a failure and with at least a row each, and it
    holds every row that was read. *)
Theorem loading_fails_on_parse_failures_and_empty_files
    (read : string → string → string → result (list TripleIndex * Z))
    (dir ord delim : string)
    (train valid test : list TripleIndex) (ntrain nvalid ntest : Z) :
  read (path_join dir TRAIN_FILENAME) ord delim = Ok (train, ntrain) →
  read (path_join dir VALID_FILENAME) ord delim = Ok (valid, nvalid) →
  read (path_join dir TEST_FILENAME) ord delim = Ok (test, ntest) →
  (ntrain ≠ 0 ∨ nvalid ≠ 0 ∨ ntest ≠ 0 →
   TripleSource_init read dir ord delim = Raise AssertionError) ∧
  (ntrain = 0 ∧ nvalid = 0 ∧ ntest = 0 →
   train = [] ∨ valid = [] ∨ test = [] →
   TripleSource_init read dir ord delim = Raise (ValueError EmptySequence)) ∧
  (∀ s, TripleSource_init read dir ord delim = Ok s →
        (ntrain = 0 ∧ nvalid = 0 ∧ ntest = 0) ∧
        (train ≠ [] ∧ valid ≠ [] ∧ test ≠ []) ∧
        train_set s = train ∧ valid_set s = valid ∧ test_set s = test).
Proof.
  intros Htrain Hvalid Htest. split; [| split].
  - intros Hfailed. unfold TripleSource_init, read_checked.
    rewrite Htrain, Hvalid, Htest; simpl.
    destruct (Z.eqb_spec ntrain 0); simpl; [| done].
    destruct (Z.eqb_spec nvalid 0); simpl; [| done].
    destruct (Z.eqb_spec ntest 0); simpl; [| done].
    lia.
  - intros (-> & -> & ->) Hempty. unfold TripleSource_init, read_checked.
    rewrite Htrain, Hvalid, Htest; simpl.
    by rewrite (max_over_sets_empty head _ _ _ Hempty).
  - intros s Hs.
    destruct (TripleSource_init_Ok _ _ _ _ _ Hs)
      as (Htr & Hva & Hte & Hne & _).
    rewrite Htrain in Htr. rewrite Hvalid in Hva. rewrite Htest in Hte.
    injection Htr as -> ->. injection Hva as -> ->. injection Hte as -> ->.
    repeat split; try done; apply Hne.
Qed.

Lemma loading_fails_on_parse_failures_and_empty_files_witness :
  TripleSource_init failing_reader "triples" "hrt" " " = Raise AssertionError ∧
  TripleSource_init empty_test_reader "triples" "hrt" " "
    = Raise (ValueError EmptySequence).
Proof.
  split.
  - apply (loading_fails_on_parse_failures_and_empty_files
             failing_reader "triples" "hrt" " "
             example_train example_valid example_test 0 1 0);
      [reflexivity | reflexivity | reflexivity | right; left; lia].
  - apply (loading_fails_on_parse_failures_and_empty_files
             empty_test_reader "triples" "hrt" " "
             example_train example_valid [] 0 0 0);
      [reflexivity | reflexivity | reflexivity | done | right; right; done].
Defined.

(** ** numpy *)

Lemma mjoin_replicate_singleton {A} (x : A) n :
  mjoin (replicate n [x]) = replicate n x.
Proof. induction n as [|n IH]; simpl; [done | by rewrite IH]. Qed.

Lemma tiled_Ok x n :
  np.fits_int64 x = true → 0 ≤ n → tiled x n = Ok (replicate (Z.to_nat n) x).
Proof.
  intros Hfit Hn. unfold tiled, np.array1, np.tile. rewrite Hfit; simpl.
  destruct (Z.ltb_spec n 0); [lia |].
  by rewrite mjoin_replicate_singleton.
Qed.

Lemma tiled_overflow x n :
  np.fits_int64 x = false → tiled x n = Raise OverflowError.
Proof. intros Hfit. unfold tiled, np.array1. by rewrite Hfit. Qed.

Lemma tiled_negative x n :
  np.fits_int64 x = true → n < 0 →
  tiled x n = Raise (ValueError NegativeDimensions).
Proof.
  intros Hfit Hn. unfold tiled, np.array1, np.tile. rewrite Hfit; simpl.
  by destruct (Z.ltb_spec n 0); [| lia].
Qed.

Lemma arange_length n : length (np.arange n) = Z.to_nat n.
Proof. unfold np.arange. apply length_seqZ. Qed.

Lemma arange_lookup n (i : nat) :
  (i < Z.to_nat n)%nat → np.arange n !! i = Some (Z.of_nat i).
Proof.
  intros Hi. unfold np.arange.
  rewrite lookup_seqZ_lt by lia. f_equal; lia.
Qed.

(** ** expand_triple_to_sets *)


(** C4. For a triple [(h, r, t)], a number [N >= 0] and a target among head,
    relation and tail, [expand_triple_to_sets] returns three arrays of
    length [N]; the target's array is [0, 1, ..., N-1] and each of the two
    others repeats the field of the triple.  The fields that are tiled are
    stored as [int64], so they are taken within its range. *)
Theorem expand_triple_to_sets_tiles (h r t N : Z) (target : TripleElement) :
  0 ≤ N →
  (target ≠ HEAD → np.fits_int64 h = true) →
  (target ≠ RELATION → np.fits_int64 r = true) →
  (target ≠ TAIL → np.fits_int64 t = true) →
  ∃ hs rs ts,
    expand_triple_to_sets (h, r, t) N (VElement target) = Ok (hs, rs, ts) ∧
    expanded target h r t N hs rs ts.
Proof.
  intros HN Hh Hr Ht. unfold expand_triple_to_sets; simpl.
  destruct target; simpl.
  - rewrite (tiled_Ok r), (tiled_Ok t) by auto; simpl.
    eexists _, _, _; split; [done |].
    unfold expanded. rewrite arange_length, !length_replicate.
    repeat split; [by apply arange_lookup | by apply lookup_replicate_2 ..].
  - rewrite (tiled_Ok h), (tiled_Ok t) by auto; simpl.
    eexists _, _, _; split; [done |].
    unfold expanded. rewrite arange_length, !length_replicate.
    repeat split; [| by apply arange_lookup |]; by apply lookup_replicate_2.
  - rewrite (tiled_Ok h), (tiled_Ok r) by auto; simpl.
    eexists _, _, _; split; [done |].
    unfold expanded. rewrite arange_length, !length_replicate.
    repeat split; [by apply lookup_replicate_2 .. | by apply arange_lookup].
Qed.

Lemma expand_triple_to_sets_tiles_witness :
  ∃ hs rs ts,
    expand_triple_to_sets (1, 1, 2) 3 (VElement HEAD) = Ok (hs, rs, ts) ∧
    expanded HEAD 1 1 2 3 hs rs ts.
Proof.
  apply (expand_triple_to_sets_tiles 1 1 2 3 HEAD); [lia | done ..].
Defined.

(** The example of the spec: [(1,1,2)] on the head with [N = 3]. *)
Example expand_head_example :
  expand_triple_to_sets (1, 1, 2) 3 (VElement HEAD)
  = Ok ([0; 1; 2], [1; 1; 1], [2; 2; 2]).
Proof. reflexivity. Qed.

(** C6. A target that is none of head, relation, tail makes
    [expand_triple_to_sets] fail at its first statement, with the
    [RuntimeError] on the wrong value of [arange_target] (the spec's
    InvalidTargetError). *)
Theorem expand_triple_to_sets_rejects_other_targets
    (triple : Z * Z * Z) (N : Z) (target : value) :
  (∀ e : TripleElement, target ≠ VElement e) →
  expand_triple_to_sets triple N target
  = Raise (RuntimeError ArangeTargetWrongValue).
Proof.
  intros Hother. unfold expand_triple_to_sets.
  destruct target as [e | | | |]; simpl; try done.
  by destruct (Hother e).
Qed.

Lemma expand_triple_to_sets_rejects_other_targets_witness :
  expand_triple_to_sets (1, 1, 2) 3 (VStr "head")
  = Raise (RuntimeError ArangeTargetWrongValue).
Proof.
  apply (expand_triple_to_sets_rejects_other_targets (1, 1, 2) 3 (VStr "head")).
  intros e. discriminate.
Defined.

(** C10. A target that passed the validation at the entry of
    [expand_triple_to_sets] is equal to [HEAD], to [RELATION] or to [TAIL],
    so one of the three branches handles it and the call never ends in the
    [RuntimeError] of the last [else]. *)
Theorem miracle_branch_unreachable
    (triple : Z * Z * Z) (N : Z) (target : value) :
  has_value target = true →
  (py_eq target (VElement HEAD) || py_eq target (VElement RELATION)
     || py_eq target (VElement TAIL)) = true ∧
  expand_triple_to_sets triple N target ≠ Raise (RuntimeError MiracleHappened).
Proof.
  intros Hvalid. destruct target as [e | | | |]; try done.
  split; [by destruct e |].
  unfold expand_triple_to_sets. destruct triple as [[h r] t]; simpl.
  unfold tiled, np.array1, np.tile.
  destruct e; simpl;
    repeat (case_match; simpl; try done).
Qed.

Lemma miracle_branch_unreachable_witness :
  has_value (VElement TAIL) = true ∧
  (py_eq (VElement TAIL) (VElement HEAD)
     || py_eq (VElement TAIL) (VElement RELATION)
     || py_eq (VElement TAIL) (VElement TAIL)) = true ∧
  expand_triple_to_sets (1, 1, 2) 3 (VElement TAIL)
  ≠ Raise (RuntimeError MiracleHappened).
Proof.
  split; [reflexivity |].
  apply (miracle_branch_unreachable (1, 1, 2) 3 (VElement TAIL)).
  reflexivity.
Defined.

(** ** TripleIndexBatchSampler *)

Section SamplerFacts.

Context {D : Type} `{Len D}.

Local Abbreviation sampler := (TripleIndexBatchSampler.t D).
Local Abbreviation next := (TripleIndexBatchSampler.__next__ (D := D)).
Local Abbreviation drain := (TripleIndexBatchSampler.drain (D := D)).
Local Abbreviation fill := TripleIndexBatchSampler.fill.
Local Abbreviation cursor := TripleIndexBatchSampler.cursor.
Local Abbreviation max_item := TripleIndexBatchSampler.max_item.
Local Abbreviation Exhausted := TripleIndexBatchSampler.Exhausted.

(** The loop that fills a batch writes the first [k] cells. *)
Lemma fill_prefix start (batch : list Z) (k : nat) :
  (k ≤ length batch)%nat →
  foldl (λ b i, <[i := start + Z.of_nat i]> b) batch (seq 0 k)
  = ((λ i : nat, start + Z.of_nat i) <$> seq 0 k) ++ drop k batch.
Proof.
  induction k as [|k IH]; intros Hk; [done |].
  rewrite seq_S, foldl_app, fmap_app; simpl.
  rewrite IH by lia.
  destruct (lookup_lt_is_Some_2 batch k) as [x Hx]; [lia |].
  rewrite insert_app_r_alt by (rewrite length_fmap, length_seq; lia).
  rewrite length_fmap, length_seq, Nat.sub_diag.
  rewrite (drop_S _ _ _ Hx); simpl.
  by rewrite <- app_assoc.
Qed.

Lemma fill_empty n start batch :
  0 ≤ n → np.empty n = Ok batch → fill n start batch = seqZ start n.
Proof.
  intros Hn. unfold np.empty.
  destruct (Z.ltb_spec n 0); [lia |]. intros [= <-].
  unfold fill. rewrite fill_prefix by (rewrite length_replicate; lia).
  rewrite drop_ge by (rewrite length_replicate; lia).
  rewrite app_nil_r. unfold seqZ.
  apply list_fmap_ext. intros; lia.
Qed.

Lemma empty_Ok n : 0 ≤ n → ∃ batch, np.empty n = Ok batch.
Proof. intros. unfold np.empty. destruct (Z.ltb_spec n 0); [lia | eauto]. Qed.


(** One call of [__next__] with [B > 0]. *)
Lemma next_full self c L B :
  iterating self c L B → 0 < B → c + B < L →
  next self = (Ok (seqZ c B), TripleIndexBatchSampler.set_cursor self (c + B)).
Proof.
  intros (Hc & Hm & HB) HBpos Hlt.
  unfold TripleIndexBatchSampler.__next__. rewrite Hc, Hm, HB; simpl.
  destruct (Z.ltb_spec (c + B) L); [| lia].
  destruct (empty_Ok B) as [batch Hbatch]; [lia |].
  rewrite Hbatch. by rewrite (fill_empty B c batch ltac:(lia) Hbatch).
Qed.

Lemma next_last self c L B :
  iterating self c L B → 0 < B → c < L → L ≤ c + B →
  next self = (Ok (seqZ c (L - c)), TripleIndexBatchSampler.set_cursor self L).
Proof.
  intros (Hc & Hm & HB) HBpos Hlt Hle.
  unfold TripleIndexBatchSampler.__next__. rewrite Hc, Hm, HB; simpl.
  destruct (Z.ltb_spec (c + B) L); [lia |].
  destruct (Z.leb_spec (L - c) 0); [lia |].
  destruct (empty_Ok (L - c)) as [batch Hbatch]; [lia |].
  rewrite Hbatch, (fill_empty (L - c) c batch ltac:(lia) Hbatch).
  do 3 f_equal. lia.
Qed.

Lemma next_stop self c L B :
  iterating self c L B → 0 ≤ B → L ≤ c →
  next self = (Raise StopIteration, self).
Proof.
  intros (Hc & Hm & HB) HBpos Hle.
  unfold TripleIndexBatchSampler.__next__. rewrite Hc, Hm, HB; simpl.
  destruct (Z.ltb_spec (c + B) L); [lia |].
  by destruct (Z.leb_spec (L - c) 0); [| lia].
Qed.

Lemma iterating_set_cursor (self : sampler) c L B c' :
  iterating self c L B →
  iterating (TripleIndexBatchSampler.set_cursor self c') c' L B.
Proof. intros (Hc & Hm & HB). done. Qed.

Lemma drain_rest fuel : ∀ self c L B,
  iterating self c L B → 0 < B → 0 ≤ c ≤ L →
  (Z.to_nat (L - c) < fuel)%nat →
  ∃ chunks final,
    drain fuel self = (chunks, Exhausted, final) ∧
    rest_of_iteration c L B chunks final.
Proof.
  induction fuel as [|fuel IH]; intros self c L B Hself HB Hc Hfuel; [lia |].
  simpl.
  destruct (decide (c + B < L)) as [Hfull | Hnotfull];
    [| destruct (decide (c < L)) as [Hlast | Hdone]].
  - (* a full batch, and more to come *)
    rewrite (next_full _ _ _ _ Hself HB Hfull).
    destruct (IH _ (c + B) L B (iterating_set_cursor _ _ _ _ (c + B) Hself))
      as (chunks & final & -> & Hjoin & Hlen & Hall & Hlastc & Hfinal);
      [lia .. |].
    eexists _, _; split; [done |].
    destruct Hlastc as (chunk & Hchunk & Hchunklen); [lia |].
    repeat split; try apply Hfinal.
    + simpl. rewrite Hjoin.
      replace (L - c) with (B + (L - (c + B))) by lia.
      by rewrite seqZ_app by lia.
    + simpl length. rewrite Nat2Z.inj_succ, Hlen.
      replace (L - c + B - 1) with (L - (c + B) + B - 1 + 1 * B) by lia.
      rewrite Z.div_add by lia. lia.
    + constructor; [rewrite length_seqZ; lia | done].
    + intros _. exists chunk. split.
      * destruct chunks; [done | by rewrite last_cons, Hchunk].
      * rewrite Hchunklen. unfold last_chunk_length.
        replace (L - c) with (L - (c + B) + 1 * B) by lia.
        by rewrite Z.mod_add by lia.
  - (* the last batch, cut to what is left *)
    rewrite (next_last _ _ _ _ Hself HB Hlast ltac:(lia)).
    destruct (IH _ L L B (iterating_set_cursor _ _ _ _ L Hself))
      as (chunks & final & -> & Hjoin & Hlen & Hall & _ & Hfinal);
      [lia .. |].
    replace (L - L + B - 1) with (B - 1) in Hlen by lia.
    rewrite Z.div_small in Hlen by lia.
    destruct chunks; [| simpl in Hlen; lia].
    eexists _, _; split; [done |].
    repeat split; try apply Hfinal.
    + simpl. by rewrite app_nil_r.
    + simpl. apply Z.div_unique with (r := L - c - 1); lia.
    + constructor; [rewrite length_seqZ; lia | done].
    + intros _. eexists; split; [done |].
      rewrite length_seqZ, Z2Nat.id by lia. unfold last_chunk_length.
      destruct (decide (L - c = B)) as [-> | Hne].
      * rewrite Z_mod_same_full. by rewrite decide_True.
      * rewrite Z.mod_small by lia. by rewrite decide_False by lia.
  - (* nothing is left *)
    rewrite (next_stop _ _ _ _ Hself ltac:(lia) ltac:(lia)).
    assert (c = L) as -> by lia.
    eexists _, _; split; [done |].
    repeat split; try apply Hself; try done; try lia.
    + by rewrite Z.sub_diag.
    + replace (L - L + B - 1) with (B - 1) by lia.
      by rewrite Z.div_small by lia.
Qed.

End SamplerFacts.

Lemma ceil_div_formula L B :
  0 < B → is_ceil_div ((L + B - 1) `div` B) L B.
Proof.
  intros HB. unfold is_ceil_div.
  pose proof (Z.div_mod (L + B - 1) B ltac:(lia)).
  pose proof (Z.mod_pos_bound (L + B - 1) B HB).
  nia.
Qed.

(** C2. Over a dataset of [L > 0] items and with a batch size [B > 0], a
    loop over a [TripleIndexBatchSampler] ends by [StopIteration] after
    having yielded chunks whose concatenation is [0, 1, ..., L-1]; their
    number is [L / B] rounded up, which is what [__len__] returns; the last
    one has [L mod B] items, or [B] when [B] divides [L]; when the loop ends
    the cursor is [L] and [__next__] raises [StopIteration]. *)
Theorem sampler_partitions_the_index_range
    {D : Type} `{Len D} (dataset : D) (B : Z) (fuel : nat) :
  0 < len dataset → 0 < B → (Z.to_nat (len dataset) < fuel)%nat →
  ∃ chunks final,
    TripleIndexBatchSampler.iterate fuel
      (TripleIndexBatchSampler.__init__ dataset B)
    = (chunks, TripleIndexBatchSampler.Exhausted, final) ∧
    mjoin chunks = seqZ 0 (len dataset) ∧
    is_ceil_div (Z.of_nat (length chunks)) (len dataset) B ∧
    TripleIndexBatchSampler.__len__ (TripleIndexBatchSampler.__init__ dataset B)
    = Z.of_nat (length chunks) ∧
    (∃ chunk, last chunks = Some chunk ∧
       Z.of_nat (length chunk) = last_chunk_length (len dataset) B) ∧
    TripleIndexBatchSampler.cursor final = Some (len dataset) ∧
    TripleIndexBatchSampler.__next__ final = (Raise StopIteration, final).
Proof.
  intros HL HB Hfuel. unfold TripleIndexBatchSampler.iterate.
  set (self := TripleIndexBatchSampler.__iter__
                 (TripleIndexBatchSampler.__init__ dataset B)).
  assert (iterating self 0 (len dataset) B) as Hself by done.
  destruct (drain_rest fuel self 0 (len dataset) B Hself HB)
    as (chunks & final & Hdrain & Hjoin & Hlen & _ & Hlast & Hfinal);
    [lia | lia |].
  rewrite Z.sub_0_r in *.
  exists chunks, final. split; [done |].
  split; [done |].
  split; [rewrite Hlen; by apply ceil_div_formula |].
  split; [by rewrite Hlen |].
  split; [by apply Hlast |].
  split; [apply Hfinal |].
  apply (next_stop final (len dataset) (len dataset) B Hfinal); lia.
Qed.

Lemma sampler_partitions_the_index_range_witness :
  ∃ chunks final,
    TripleIndexBatchSampler.iterate 6
      (TripleIndexBatchSampler.__init__ example_dataset 2)
    = (chunks, TripleIndexBatchSampler.Exhausted, final) ∧
    mjoin chunks = seqZ 0 (len example_dataset) ∧
    is_ceil_div (Z.of_nat (length chunks)) (len example_dataset) 2 ∧
    TripleIndexBatchSampler.__len__
      (TripleIndexBatchSampler.__init__ example_dataset 2)
    = Z.of_nat (length chunks) ∧
    (∃ chunk, last chunks = Some chunk ∧
       Z.of_nat (length chunk) = last_chunk_length (len example_dataset) 2) ∧
    TripleIndexBatchSampler.cursor final = Some (len example_dataset) ∧
    TripleIndexBatchSampler.__next__ final = (Raise StopIteration, final).
Proof.
  apply (sampler_partitions_the_index_range example_dataset 2 6);
    [reflexivity | reflexivity | vm_compute; lia].
Defined.

(** Five items by two: two full chunks and one of a single index. *)
Example sampler_five_by_two :
  (TripleIndexBatchSampler.iterate 6
     (TripleIndexBatchSampler.__init__ example_dataset 2)).1.1
  = [[0; 1]; [2; 3]; [4]].
Proof. reflexivity. Qed.

(** ** get_triples_from_batch *)

Lemma consume_all_Ok {A B} (f : A → B) (l : list A) :
  consume ((λ x, Ok (f x)) <$> l) = Ok (f <$> l).
Proof.
  unfold consume. induction l as [|x l IH]; [done |].
  simpl.
  change (list_fmap A (result B) (λ x0, Ok (f x0)) l)
    with ((λ x0 : A, Ok (f x0)) <$> l).
  by rewrite IH.
Qed.

Lemma size_1 b : np.size [b] = b.
Proof. unfold np.size; simpl; lia. Qed.

Lemma size_2 b s : np.size [b; s] = b * s.
Proof. unfold np.size; simpl; lia. Qed.

Lemma size_3 b s e : np.size [b; s; e] = b * s * e.
Proof. unfold np.size; simpl; lia. Qed.

Lemma section_length b s e batch k :
  length (np.data (np.section b s e batch k)) = Z.to_nat (b * s).
Proof. simpl. by rewrite length_fmap, length_seq. Qed.

Lemma section_lookup b s e batch (k r : nat) :
  0 ≤ e → (k < Z.to_nat e)%nat → (r < Z.to_nat (b * s))%nat →
  Z.of_nat (length (np.data batch)) = b * s * e →
  np.data (np.section b s e batch k) !! r
  = np.data batch !! (r * Z.to_nat e + k)%nat.
Proof.
  intros He Hk Hr Hlen. simpl.
  rewrite list_lookup_fmap, lookup_seq_lt by done. simpl.
  symmetry. apply list_lookup_lookup_total_lt. nia.
Qed.

Lemma reshape_section b s e batch k newshape :
  Forall (λ d, 0 ≤ d) newshape → np.size newshape = b * s → 0 ≤ b * s →
  np.reshape (np.section b s e batch k) newshape
  = Ok {| np.shape := newshape;
          np.data := np.data (np.section b s e batch k) |}.
Proof.
  intros Hpos Hsize Hbs. unfold np.reshape.
  rewrite section_length, Hsize, Z2Nat.id, Z.eqb_refl by done.
  replace (forallb (λ d, 0 <=? d) newshape) with true; [done |].
  symmetry. apply forallb_forall.
  intros d Hd%list_elem_of_In. rewrite Forall_forall in Hpos.
  apply Z.leb_le, Hpos, Hd.
Qed.

(** C8, as it holds.  With at least one element per sample, and with at
    least one sample per row or no row at all, unpacking the result of
    [get_triples_from_batch] gives one array per element, split along the
    last axis: of shape [(batch_size,)] when [num_samples <= 1] and of shape
    [(batch_size, num_samples)] otherwise. *)
Theorem get_triples_from_batch_columns (batch : np.ndarray) (b s e : Z) :
  np.wf batch → np.shape batch = [b; s; e] →
  1 ≤ e → (1 ≤ s ∨ b = 0) →
  returns_columns batch b s e.
Proof.
  intros [Hpos Hlen] Hshape He Hs.
  rewrite Hshape in Hpos, Hlen. rewrite size_3 in Hlen.
  apply Forall_cons in Hpos as [Hb Hpos].
  apply Forall_cons in Hpos as [Hs0 _].
  set (newshape := if decide (s ≤ 1) then [b] else [b; s]).
  assert (Forall (λ d, 0 ≤ d) newshape ∧ np.size newshape = b * s)
    as [Hnew Hsize].
  { unfold newshape. case_decide.
    - split; [by repeat constructor | rewrite size_1; nia].
    - split; [by repeat constructor | by rewrite size_2]. }
  exists ((λ k, {| np.shape := newshape;
                   np.data := np.data (np.section b s e batch k) |})
            <$> seq 0 (Z.to_nat e)).
  split; [| split].
  - unfold get_triples_from_batch, np.unpack3, np.split_axis2.
    rewrite Hshape; simpl.
    destruct (Z.eqb_spec e 0); [lia |]; simpl.
    destruct (Z.leb_spec s 1); simpl;
      rewrite <- list_fmap_compose, <- (consume_all_Ok _ (seq 0 (Z.to_nat e)));
      f_equal; apply list_fmap_ext; intros i k _; unfold compose;
      [rewrite reshape_section by (rewrite ?size_1; repeat constructor; nia)
      |rewrite reshape_section by (rewrite ?size_2; repeat constructor; nia)];
      unfold newshape; [by rewrite decide_True | by rewrite decide_False by lia].
  - rewrite length_fmap, length_seq. lia.
  - intros k a Hka.
    apply list_lookup_fmap_Some in Hka as (k' & -> & Hk').
    apply lookup_seq in Hk' as [-> Hk].
    split; [done |].
    intros i j Hi Hj. cbn [np.data].
    apply section_lookup; (done || nia).
Qed.

Lemma get_triples_from_batch_columns_witness :
  np.wf example_batch ∧ returns_columns example_batch 2 2 3.
Proof.
  assert (np.wf example_batch) as Hwf.
  { split; [by repeat constructor | reflexivity]. }
  split; [exact Hwf |].
  apply (get_triples_from_batch_columns example_batch 2 2 3);
    [exact Hwf | reflexivity | lia | left; lia].
Defined.

(** The heads, the relations and the tails of the example batch. *)
Example get_triples_from_example_batch :
  Py.bind (get_triples_from_batch example_batch) consume
  = Ok [ {| np.shape := [2; 2]; np.data := [0; 0; 1; 1] |};
         {| np.shape := [2; 2]; np.data := [0; 0; 1; 0] |};
         {| np.shape := [2; 2]; np.data := [1; 3; 2; 2] |} ].
Proof. reflexivity. Qed.

(** C8, as stated, fails on a batch of two rows without a sample:
    [num_samples <= 1] holds, and an array without an item cannot be
    reshaped to [(2,)]. *)
Lemma get_triples_from_batch_no_sample :
  np.wf no_sample_batch ∧ np.shape no_sample_batch = [2; 0; 3] ∧
  Py.bind (get_triples_from_batch no_sample_batch) consume
  = Raise (ValueError CannotReshape) ∧
  ¬ returns_columns no_sample_batch 2 0 3.
Proof.
  split; [split; [by repeat constructor | reflexivity] |].
  split; [reflexivity |].
  split; [reflexivity |].
  intros (arrays & Harrays & _). discriminate Harrays.
Qed.

(** A batch without an element cannot be split at all. *)
Example get_triples_from_batch_no_element :
  get_triples_from_batch {| np.shape := [2; 1; 0]; np.data := [] |}
  = Raise ZeroDivisionError.
Proof. reflexivity. Qed.

(** ** create_dataloader *)

Lemma bind_assoc {A B C} (m : result A) (f : A → result B) (g : B → result C) :
  Py.bind (Py.bind m f) g = Py.bind m (λ x, Py.bind (f x) g).
Proof. by destruct m. Qed.

Section DataloaderFacts.

Context {T : Type} `{Len T}.
Variable ordered : string → list TripleIndex → result T.

Lemma dataset_init_member triple_source d order x :
  ordered order (set_of_type triple_source d) = Ok x →
  TripleIndexesDataset_init triple_source (VDatasetType d)
    (Some (ordered order))
  = Ok {| triples := Transformed x; transform := Some (ordered order) |}.
Proof.
  intros Hx. unfold TripleIndexesDataset_init.
  destruct d; simpl in *; by rewrite Hx.
Qed.

Lemma dataset_init_other triple_source v tr :
  (∀ d, v ≠ VDatasetType d) →
  TripleIndexesDataset_init (T := T) triple_source v tr
  = Raise (RuntimeError DatasetTypeDoesntExist).
Proof.
  intros Hv. unfold TripleIndexesDataset_init.
  destruct v as [| d | | |]; try done. by destruct (Hv d).
Qed.

(** The stages of training. *)
Lemma dataloader_args_training triple_source config collates_label x :
  ordered (triple_order config) (train_set triple_source) = Ok x →
  ∃ args corruptor negative_sampler,
    dataloader_args ordered triple_source config collates_label
      (VDatasetType TRAINING) = Ok args ∧
    transforms.stages (collate_fn args)
    = [ list_stack_collate;
        CorruptionCollate corruptor;
        LCWANoThrowCollate triple_source negative_sampler;
        if collates_label then label_collate else none_label_collate;
        BreakdownCollator config ] ∧
    TripleIndexBatchSampler.batch_size (batch_sampler args)
    = batch_size config.
Proof.
  intros Hx. unfold dataloader_args.
  rewrite (dataset_init_member triple_source TRAINING _ x Hx); simpl.
  eexists _, _, _. split; [done |].
  by destruct collates_label.
Qed.

(** The stages and the batch size of validation and testing. *)
Lemma dataloader_args_evaluation triple_source config collates_label d x n :
  d ≠ TRAINING →
  ordered (triple_order config) (set_of_type triple_source d) = Ok x →
  scaled_batch_size config = Ok n →
  ∃ args,
    dataloader_args ordered triple_source config collates_label
      (VDatasetType d) = Ok args ∧
    transforms.stages (collate_fn args)
    = TripleTileCollate config triple_source
        :: (if collates_label then [label_prediction_collate] else []) ∧
    TripleIndexBatchSampler.batch_size (batch_sampler args) = Z.max 1 n.
Proof.
  intros Hd Hx Hn. unfold dataloader_args.
  rewrite (dataset_init_member triple_source d _ x Hx); simpl.
  assert (py_eq (VDatasetType d) (VDatasetType TRAINING) = false) as ->
    by (by destruct d).
  unfold scaled_batch_size in Hn.
  apply bind_Ok in Hn as (scaled & -> & Hn). simpl. rewrite Hn; simpl.
  eexists. split; [done |]. simpl.
  split; [by destruct collates_label |].
  unfold max2, _SAFE_MINIMAL_BATCH_SIZE.
  destruct (Z.ltb_spec 1 n); lia.
Qed.

Lemma dataloader_args_evaluation_fails
    triple_source config collates_label d x e :
  d ≠ TRAINING →
  ordered (triple_order config) (set_of_type triple_source d) = Ok x →
  scaled_batch_size config = Raise e →
  dataloader_args ordered triple_source config collates_label
    (VDatasetType d) = Raise e.
Proof.
  intros Hd Hx Hn. unfold dataloader_args.
  rewrite (dataset_init_member triple_source d _ x Hx); simpl.
  assert (py_eq (VDatasetType d) (VDatasetType TRAINING) = false) as ->
    by (by destruct d).
  unfold scaled_batch_size in Hn.
  apply bind_Raise in Hn as [-> | (scaled & -> & Hn)]; simpl; [done |].
  by rewrite Hn.
Qed.

End DataloaderFacts.

Lemma call_nil {B} (apply : collate → B → result B) img :
  transforms.call apply {| transforms.stages := [] |} img = Ok img.
Proof. done. Qed.

Lemma foldl_raised {B} (apply : collate → B → result B) e ts :
  foldl (λ acc t, x <- acc; apply t x) (Raise e) ts = Raise e.
Proof. induction ts as [|t ts IH]; simpl; done. Qed.

Lemma call_cons {B} (apply : collate → B → result B) t ts img :
  transforms.call apply {| transforms.stages := t :: ts |} img
  = (x <- apply t img; transforms.call apply {| transforms.stages := ts |} x).
Proof.
  unfold transforms.call; simpl.
  destruct (apply t img) as [x | e]; simpl; [done | apply foldl_raised].
Qed.

(** C7. For training, [create_dataloader] composes five stages in this
    order: stacking, corruption tagging, negative expansion, the label stage
    ([label_collate], or the pass-through [none_label_collate], as
    [collates_label] says) and the final breakdown; [Compose] applies them
    from the first to the last.  For validation and testing it composes the
    single stage [TripleTileCollate], followed by [label_prediction_collate]
    when [collates_label] is set. *)
Theorem create_dataloader_composes_stages_in_order
    {T : Type} `{Len T}
    (ordered : string → list TripleIndex → result T)
    (triple_source : TripleSource) (config : Config) (collates_label : bool)
    (d : DatasetType) (x : T) :
  ordered (triple_order config) (set_of_type triple_source d) = Ok x →
  (d = TRAINING ∨ ∃ n, scaled_batch_size config = Ok n) →
  ∃ args,
    dataloader_args ordered triple_source config collates_label
      (VDatasetType d) = Ok args ∧
    match d with
    | TRAINING =>
        ∃ corruptor negative_sampler,
          let label_stage :=
            if collates_label then label_collate else none_label_collate in
          transforms.stages (collate_fn args)
          = [ list_stack_collate;
              CorruptionCollate corruptor;
              LCWANoThrowCollate triple_source negative_sampler;
              label_stage;
              BreakdownCollator config ] ∧
          ∀ (B : Type) (apply : collate → B → result B) (img : B),
            transforms.call apply (collate_fn args) img
            = (stacked <- apply list_stack_collate img;
               tagged <- apply (CorruptionCollate corruptor) stacked;
               expanded <-
                 apply (LCWANoThrowCollate triple_source negative_sampler) tagged;
               labelled <- apply label_stage expanded;
               apply (BreakdownCollator config) labelled)
    | VALIDATION | TESTING =>
        transforms.stages (collate_fn args)
        = TripleTileCollate config triple_source
            :: (if collates_label then [label_prediction_collate] else []) ∧
        ∀ (B : Type) (apply : collate → B → result B) (img : B),
          transforms.call apply (collate_fn args) img
          = (tiled <- apply (TripleTileCollate config triple_source) img;
             if collates_label then apply label_prediction_collate tiled
             else Ok tiled)
    end.
Proof.
  intros Hx Hd.
  assert (∀ (B : Type) (m : result B), Py.bind m (λ x, Ok x) = m) as bind_ret
    by (by intros B []).
  destruct (decide (d = TRAINING)) as [-> | Hne].
  - destruct (dataloader_args_training ordered triple_source config
                collates_label x Hx)
      as (args & corruptor & negative_sampler & Hargs & Hstages & _).
    exists args. split; [done |].
    exists corruptor, negative_sampler. split; [done |].
    intros B apply img. destruct args as [? ? ? ? [stages]]; simpl in *.
    rewrite Hstages.
    rewrite call_cons; destruct (apply list_stack_collate img) as [x1 |];
      simpl; [| done].
    rewrite call_cons; destruct (apply (CorruptionCollate corruptor) x1)
      as [x2 |]; simpl; [| done].
    rewrite call_cons;
      destruct (apply (LCWANoThrowCollate triple_source negative_sampler) x2)
      as [x3 |]; simpl; [| done].
    rewrite call_cons;
      destruct (apply (if collates_label then label_collate
                       else none_label_collate) x3) as [x4 |]; simpl; [| done].
    rewrite call_cons. apply bind_ret.
  - destruct Hd as [-> | [n Hn]]; [done |].
    destruct (dataloader_args_evaluation ordered triple_source config
                collates_label d x n Hne Hx Hn)
      as (args & Hargs & Hstages & _).
    exists args. split; [done |].
    assert (transforms.stages (collate_fn args)
            = TripleTileCollate config triple_source
                :: (if collates_label then [label_prediction_collate] else []) ∧
            ∀ (B : Type) (apply : collate → B → result B) (img : B),
              transforms.call apply (collate_fn args) img
              = (tiled <- apply (TripleTileCollate config triple_source) img;
                 if collates_label then apply label_prediction_collate tiled
                 else Ok tiled)) as Hgoal.
    { split; [done |]. intros B apply img.
      destruct args as [? ? ? ? [stages]]; simpl in *.
      rewrite Hstages, call_cons.
      destruct (apply (TripleTileCollate config triple_source) img); [| done].
      simpl. destruct collates_label; [| done].
      rewrite call_cons. apply bind_ret. }
    by destruct d.
Qed.

Lemma create_dataloader_composes_stages_in_order_witness :
  identity_transform (triple_order example_config)
    (set_of_type example_store TRAINING) = Ok example_train ∧
  ∃ args corruptor negative_sampler,
    dataloader_args identity_transform example_store example_config true
      (VDatasetType TRAINING) = Ok args ∧
    transforms.stages (collate_fn args)
    = [ list_stack_collate;
        CorruptionCollate corruptor;
        LCWANoThrowCollate example_store negative_sampler;
        label_collate;
        BreakdownCollator example_config ].
Proof.
  split; [reflexivity |].
  destruct (create_dataloader_composes_stages_in_order
              identity_transform example_store example_config true
              TRAINING example_train eq_refl (or_introl eq_refl))
    as (args & Hargs & corruptor & negative_sampler & Hstages & _).
  exists args, corruptor, negative_sampler. split; [exact Hargs | exact Hstages].
Defined.

(** ** The batch size of an evaluation *)

Lemma scaled_batch_size_int config k :
  evaluation_load_factor config = PyInt k →
  scaled_batch_size config = Ok (batch_size config * k).
Proof. intros Hk. unfold scaled_batch_size. by rewrite Hk. Qed.

(** A batch size of 100 scaled by 0.001 is 0 before the minimum is taken. *)
Example scaled_batch_size_example : scaled_batch_size example_config = Ok 0.
Proof. vm_compute. reflexivity. Qed.

(** C9. The batch size given to the sampler of a validation or testing
    dataloader is [max(1, int(config.batch_size *
    config.evaluation_load_factor))], hence at least 1 whatever the load
    factor; when the product cannot be converted to an integer, no
    dataloader is built. *)
Theorem evaluation_batch_size_at_least_one
    {T : Type} `{Len T} {DataLoader : Type}
    (ordered : string → list TripleIndex → result T)
    (torch_DataLoader : DataLoaderArgs → result DataLoader)
    (triple_source : TripleSource) (config : Config) (collates_label : bool)
    (d : DatasetType) (x : T) :
  d ≠ TRAINING →
  ordered (triple_order config) (set_of_type triple_source d) = Ok x →
  match scaled_batch_size config with
  | Ok n =>
      ∃ args,
        dataloader_args ordered triple_source config collates_label
          (VDatasetType d) = Ok args ∧
        create_dataloader ordered torch_DataLoader triple_source config
          collates_label (VDatasetType d) = torch_DataLoader args ∧
        TripleIndexBatchSampler.batch_size (batch_sampler args) = Z.max 1 n ∧
        1 ≤ TripleIndexBatchSampler.batch_size (batch_sampler args)
  | Raise e =>
      create_dataloader ordered torch_DataLoader triple_source config
        collates_label (VDatasetType d) = Raise e
  end.
Proof.
  intros Hd Hx.
  destruct (scaled_batch_size config) as [n | e] eqn:Hn.
  - destruct (dataloader_args_evaluation ordered triple_source config
                collates_label d x n Hd Hx Hn)
      as (args & Hargs & _ & Hsize).
    exists args. split; [done |].
    split; [unfold create_dataloader; by rewrite Hargs |].
    split; [done | lia].
  - unfold create_dataloader.
    by rewrite (dataloader_args_evaluation_fails ordered triple_source config
                  collates_label d x e Hd Hx Hn).
Qed.

Lemma evaluation_batch_size_at_least_one_witness :
  VALIDATION ≠ TRAINING ∧
  identity_transform (triple_order example_config)
    (set_of_type example_store VALIDATION) = Ok example_valid ∧
  ∃ args,
    dataloader_args identity_transform example_store example_config false
      (VDatasetType VALIDATION) = Ok args ∧
    create_dataloader identity_transform (λ a, Ok a) example_store
      example_config false (VDatasetType VALIDATION) = Ok args ∧
    TripleIndexBatchSampler.batch_size (batch_sampler args) = Z.max 1 0 ∧
    1 ≤ TripleIndexBatchSampler.batch_size (batch_sampler args).
Proof.
  split; [discriminate |]. split; [reflexivity |].
  exact (evaluation_batch_size_at_least_one
           identity_transform (λ a, Ok a) example_store example_config false
           VALIDATION example_valid ltac:(discriminate) eq_refl).
Defined.

(** ** sieve_and_expand_triple *)

Lemma batch_is_unbound :
  load_global module_globals "batch" = Raise (NameError "batch").
Proof. unfold load_global, module_globals. by rewrite lookup_empty. Qed.

(** C3. The first statement of [sieve_and_expand_triple] reads [batch],
    which is neither a parameter nor a name of the module: every call raises
    [NameError], whatever the query. *)
Theorem sieve_and_expand_triple_raises_NameError
    (triple_source : TripleSource) (entities relations : gmap string Z)
    (head relation tail : string) :
  sieve_and_expand_triple triple_source entities relations head relation tail
  = Raise (NameError "batch").
Proof.
  unfold sieve_and_expand_triple, sieve_and_expand_triple_in.
  by rewrite batch_is_unbound.
Qed.

(** The query [(?, r, b)] on the example store. *)
Example sieve_and_expand_triple_head_query :
  sieve_and_expand_triple example_store example_entities example_relations
    "?" "r" "b"
  = Raise (NameError "batch").
Proof.
  unfold sieve_and_expand_triple, sieve_and_expand_triple_in.
  by rewrite batch_is_unbound.
Qed.

(** What the rest of the body does in a namespace that binds [batch] to a
    three-dimensional array with a last axis. *)
Section WithBatch.

Variable globals : gmap string np.ndarray.
Variable batch : np.ndarray.
Variables b s e : Z.
Hypothesis batch_bound : globals !! "batch" = Some batch.
Hypothesis batch_shape : np.shape batch = [b; s; e].
Hypothesis last_axis : e ≠ 0.

Variable triple_source : TripleSource.
Variables entities relations : gmap string Z.

Lemma sieve_head_query relation tail r t :
  relations !! relation = Some r → entities !! tail = Some t →
  np.fits_int64 r = true → np.fits_int64 t = true →
  0 ≤ num_entity triple_source →
  sieve_and_expand_triple_in globals triple_source entities relations
    "?" relation tail
  = Ok ((seqZ 0 (num_entity triple_source),
         replicate (Z.to_nat (num_entity triple_source)) r,
         replicate (Z.to_nat (num_entity triple_source)) t),
        HEAD_KEY, Build_TripleIndex (-1) r t).
Proof.
  intros Hr Ht Hfr Hft Hn.
  unfold sieve_and_expand_triple_in, load_global, np.unpack3, np.split_axis2,
    getitem.
  rewrite batch_bound; simpl. rewrite batch_shape; simpl.
  destruct (Z.eqb_spec e 0); [done |]; simpl.
  rewrite Hr, Ht; simpl.
  by rewrite !tiled_Ok by done.
Qed.

Lemma sieve_relation_query head tail h t :
  head ≠ "?" →
  entities !! head = Some h → entities !! tail = Some t →
  np.fits_int64 h = true → np.fits_int64 t = true →
  0 ≤ num_relation triple_source →
  sieve_and_expand_triple_in globals triple_source entities relations
    head "?" tail
  = Ok ((replicate (Z.to_nat (num_relation triple_source)) h,
         seqZ 0 (num_relation triple_source),
         replicate (Z.to_nat (num_relation triple_source)) t),
        RELATION_KEY, Build_TripleIndex h (-1) t).
Proof.
  intros Hhead Hh Ht Hfh Hft Hn.
  unfold sieve_and_expand_triple_in, load_global, np.unpack3, np.split_axis2,
    getitem.
  rewrite batch_bound; simpl. rewrite batch_shape; simpl.
  destruct (Z.eqb_spec e 0); [done |]; simpl.
  rewrite bool_decide_eq_false_2 by done. simpl.
  rewrite Hh, Ht; simpl.
  by rewrite !tiled_Ok by done.
Qed.

Lemma sieve_tail_query head relation h r :
  head ≠ "?" → relation ≠ "?" →
  relations !! relation = Some r → entities !! head = Some h →
  np.fits_int64 h = true → np.fits_int64 r = true →
  0 ≤ num_entity triple_source →
  sieve_and_expand_triple_in globals triple_source entities relations
    head relation "?"
  = Ok ((replicate (Z.to_nat (num_entity triple_source)) h,
         replicate (Z.to_nat (num_entity triple_source)) r,
         seqZ 0 (num_entity triple_source)),
        TAIL_KEY, Build_TripleIndex h r (-1)).
Proof.
  intros Hhead Hrelation Hr Hh Hfh Hfr Hn.
  unfold sieve_and_expand_triple_in, load_global, np.unpack3, np.split_axis2,
    getitem.
  rewrite batch_bound; simpl. rewrite batch_shape; simpl.
  destruct (Z.eqb_spec e 0); [done |]; simpl.
  rewrite !bool_decide_eq_false_2 by done. simpl.
  rewrite Hr, Hh; simpl.
  by rewrite !tiled_Ok by done.
Qed.

Lemma sieve_all_known head relation tail :
  head ≠ "?" → relation ≠ "?" → tail ≠ "?" →
  sieve_and_expand_triple_in globals triple_source entities relations
    head relation tail
  = Raise (RuntimeError AllKnown).
Proof.
  intros Hhead Hrelation Htail.
  unfold sieve_and_expand_triple_in, load_global, np.unpack3, np.split_axis2.
  rewrite batch_bound; simpl. rewrite batch_shape; simpl.
  destruct (Z.eqb_spec e 0); [done |]; simpl.
  by rewrite !bool_decide_eq_false_2 by done.
Qed.

(** Two placeholders: the head branch runs and looks the second one up as
    a name. *)
Lemma sieve_two_placeholders relation r :
  relations !! relation = Some r → entities !! "?" = None →
  sieve_and_expand_triple_in globals triple_source entities relations
    "?" relation "?"
  = Raise (KeyError "?").
Proof.
  intros Hr Hq.
  unfold sieve_and_expand_triple_in, load_global, np.unpack3, np.split_axis2,
    getitem.
  rewrite batch_bound; simpl. rewrite batch_shape; simpl.
  destruct (Z.eqb_spec e 0); [done |]; simpl.
  by rewrite Hr, Hq.
Qed.

End WithBatch.

(** * Further properties *)

(** ** TripleSource: invariants and failures *)

(** The maxima of a loaded store, as [TripleSource_init] computes them. *)
Lemma loaded_maxima
    (read : string → string → string → result (list TripleIndex * Z))
    (dir ord delim : string) (s : TripleSource) :
  TripleSource_init read dir ord delim = Ok s →
  is_maximum (num_entity s - 1)
    (entity_ids (train_set s ++ valid_set s ++ test_set s)) ∧
  is_maximum (num_relation s - 1)
    (relation_ids (train_set s ++ valid_set s ++ test_set s)).
Proof.
  intros Hinit.
  destruct (TripleSource_init_Ok _ _ _ _ _ Hinit)
    as (_ & _ & _ & _ & mh & mt & mr & Hmh & Hmt & Hmr & -> & ->).
  apply max_over_sets_Ok in Hmh as (_ & Hh_in & Hh_le).
  apply max_over_sets_Ok in Hmt as (_ & Ht_in & Ht_le).
  apply max_over_sets_Ok in Hmr as (_ & Hr_in & Hr_le).
  split; split.
  - apply elem_of_entity_ids. unfold max2.
    destruct (Z.ltb_spec (head mh) (tail mt));
      [exists mt | exists mh]; split; try done; [right | left]; lia.
  - intros x (y & Hy & [-> | ->])%elem_of_entity_ids; unfold max2;
      specialize (Hh_le _ Hy); specialize (Ht_le _ Hy);
      destruct (Z.ltb_spec (head mh) (tail mt)); lia.
  - apply elem_of_relation_ids. exists mr; split; [done | lia].
  - intros x (y & Hy & ->)%elem_of_relation_ids.
    specialize (Hr_le _ Hy). lia.
Qed.

(** X1. Every triple of a loaded store, in whichever of the three sets, has
    its head and its tail below [num_entity] and its relation below
    [num_relation]. *)
Theorem loaded_ids_below_vocabulary_sizes
    (read : string → string → string → result (list TripleIndex * Z))
    (dir ord delim : string) (s : TripleSource) (t : TripleIndex) :
  TripleSource_init read dir ord delim = Ok s →
  t ∈ train_set s ++ valid_set s ++ test_set s →
  head t < num_entity s ∧ tail t < num_entity s ∧
  relation t < num_relation s.
Proof.
  intros Hinit Ht.
  destruct (loaded_maxima _ _ _ _ _ Hinit) as [[_ He] [_ Hr]].
  assert (head t ≤ num_entity s - 1)
    by (apply He, elem_of_entity_ids; eauto).
  assert (tail t ≤ num_entity s - 1)
    by (apply He, elem_of_entity_ids; eauto).
  assert (relation t ≤ num_relation s - 1)
    by (apply Hr, elem_of_relation_ids; eauto).
  lia.
Qed.

Lemma loaded_ids_below_vocabulary_sizes_witness :
  TripleSource_init example_reader "triples" "hrt" " " = Ok example_store ∧
  Build_TripleIndex 2 0 0
    ∈ train_set example_store ++ valid_set example_store
      ++ test_set example_store ∧
  2 < num_entity example_store ∧ 0 < num_entity example_store ∧
  0 < num_relation example_store.
Proof.
  assert (Build_TripleIndex 2 0 0
            ∈ train_set example_store ++ valid_set example_store
              ++ test_set example_store) as Hin
    by (do 2 right; left).
  split; [reflexivity |]. split; [exact Hin |].
  apply (loaded_ids_below_vocabulary_sizes example_reader "triples" "hrt" " "
           example_store (Build_TripleIndex 2 0 0)); [reflexivity | exact Hin].
Defined.

Lemma is_maximum_same_items m l l' :
  (∀ x, x ∈ l ↔ x ∈ l') → is_maximum m l → is_maximum m l'.
Proof. intros Hsame [Hin Hle]. split; [by apply Hsame | intros x ?%Hsame; auto]. Qed.

(** X2. The vocabulary sizes depend on which triples were loaded only: two
    stores holding the same triples, in whatever order and however spread
    over train, valid and test, have the same [num_entity] and
    [num_relation]. *)
Theorem vocabulary_sizes_ignore_order_and_split
    (read read' : string → string → string → result (list TripleIndex * Z))
    (dir dir' ord ord' delim delim' : string) (s s' : TripleSource) :
  TripleSource_init read dir ord delim = Ok s →
  TripleSource_init read' dir' ord' delim' = Ok s' →
  (∀ t, t ∈ train_set s ++ valid_set s ++ test_set s
        ↔ t ∈ train_set s' ++ valid_set s' ++ test_set s') →
  num_entity s = num_entity s' ∧ num_relation s = num_relation s'.
Proof.
  intros Hs Hs' Hsame.
  destruct (loaded_maxima _ _ _ _ _ Hs) as [He Hr].
  destruct (loaded_maxima _ _ _ _ _ Hs') as [He' Hr'].
  assert (num_entity s - 1 = num_entity s' - 1).
  { apply (is_maximum_unique _ _ _ He).
    apply (is_maximum_same_items _
      (entity_ids (train_set s' ++ valid_set s' ++ test_set s'))); [| done].
    intros x. rewrite !elem_of_entity_ids.
    split; intros (y & Hy & Hx); exists y; split; (done || by apply Hsame). }
  assert (num_relation s - 1 = num_relation s' - 1).
  { apply (is_maximum_unique _ _ _ Hr).
    apply (is_maximum_same_items _
      (relation_ids (train_set s' ++ valid_set s' ++ test_set s'))); [| done].
    intros x. rewrite !elem_of_relation_ids.
    split; intros (y & Hy & Hx); exists y; split; (done || by apply Hsame). }
  lia.
Qed.

Lemma vocabulary_sizes_ignore_order_and_split_witness :
  TripleSource_init example_reader "triples" "hrt" " " = Ok example_store ∧
  TripleSource_init shuffled_reader "triples" "hrt" " " = Ok shuffled_store ∧
  num_entity example_store = num_entity shuffled_store ∧
  num_relation example_store = num_relation shuffled_store.
Proof.
  split; [reflexivity |]. split; [reflexivity |].
  apply (vocabulary_sizes_ignore_order_and_split
           example_reader shuffled_reader
           "triples" "triples" "hrt" "hrt" " " " ");
    [reflexivity | reflexivity |].
  intros t. simpl. unfold example_train, example_valid, example_test.
  rewrite !elem_of_cons, !elem_of_nil. tauto.
Defined.

(** ** TripleSource: the paths it reads *)

Lemma string_app_assoc (a b c : string) : (a +:+ b) +:+ c = a +:+ b +:+ c.
Proof.
  induction a as [| x a IH]; [done |].
  change (String x ((a +:+ b) +:+ c) = String x (a +:+ b +:+ c)).
  by rewrite IH.
Qed.

Lemma rev_app_append (a b acc : string) :
  String.rev_app (a +:+ b) acc = String.rev_app b (String.rev_app a acc).
Proof.
  revert acc. induction a as [| x a IH]; intros acc; [done |].
  change (String.rev_app (a +:+ b) (String x acc)
          = String.rev_app b (String.rev_app a (String x acc))).
  apply IH.
Qed.

Lemma ends_with_slash_append (d : string) : ends_with_slash (d +:+ "/") = true.
Proof.
  unfold ends_with_slash, String.rev. by rewrite rev_app_append.
Qed.

Lemma path_join_trailing_slash (d f : string) :
  d ≠ "" → ends_with_slash d = false →
  path_join (d +:+ "/") f = path_join d f.
Proof.
  intros Hd Hslash. unfold path_join.
  rewrite ends_with_slash_append, Hslash, orb_true_r.
  rewrite (bool_decide_eq_false_2 (d = "")) by done. simpl.
  apply string_app_assoc.
Qed.

(** X3. A directory given with a slash at its end is the directory given
    without: the same three files are read, and the same store is built or
    the same exception raised. *)
Theorem trailing_slash_of_data_dir_is_immaterial
    (read : string → string → string → result (list TripleIndex * Z))
    (d ord delim : string) :
  d ≠ "" → ends_with_slash d = false →
  (s <- TripleSource_init read (d +:+ "/") ord delim; Ok (contents s))
  = (s <- TripleSource_init read d ord delim; Ok (contents s)).
Proof.
  intros Hd Hslash. unfold TripleSource_init.
  rewrite !path_join_trailing_slash by done.
  destruct (read_checked read (path_join d TRAIN_FILENAME) ord delim)
    as [train |]; simpl; [| done].
  destruct (read_checked read (path_join d VALID_FILENAME) ord delim)
    as [valid |]; simpl; [| done].
  destruct (read_checked read (path_join d TEST_FILENAME) ord delim)
    as [test |]; simpl; [| done].
  destruct (max_over_sets head [train; valid; test]); simpl; [| done].
  destruct (max_over_sets tail [train; valid; test]); simpl; [| done].
  destruct (max_over_sets relation [train; valid; test]); simpl; done.
Qed.

Lemma trailing_slash_of_data_dir_is_immaterial_witness :
  (s <- TripleSource_init example_reader "triples/" "hrt" " "; Ok (contents s))
  = (s <- TripleSource_init example_reader "triples" "hrt" " ";
     Ok (contents s)).
Proof.
  apply (trailing_slash_of_data_dir_is_immaterial
           example_reader "triples" "hrt" " "); [discriminate | reflexivity].
Defined.

(** X4. When [train.txt] cannot be read or has unparsable lines, the
    constructor fails on it and the two other files play no part: whatever
    they hold, and whether they can be read at all, the exception is the
    same. *)
Theorem failure_on_train_hides_the_other_files
    (read read' : string → string → string → result (list TripleIndex * Z))
    (dir ord delim : string) :
  read (path_join dir TRAIN_FILENAME) ord delim
  = read' (path_join dir TRAIN_FILENAME) ord delim →
  (∀ train, read (path_join dir TRAIN_FILENAME) ord delim ≠ Ok (train, 0)) →
  ∃ e, TripleSource_init read dir ord delim = Raise e ∧
       TripleSource_init read' dir ord delim = Raise e ∧
       (∀ train n, read (path_join dir TRAIN_FILENAME) ord delim
                   = Ok (train, n) → e = AssertionError).
Proof.
  intros Hsame Hfails. unfold TripleSource_init, read_checked.
  rewrite <- Hsame.
  destruct (read (path_join dir TRAIN_FILENAME) ord delim)
    as [[train n] | e] eqn:Hread; simpl.
  - destruct (Z.eqb_spec n 0) as [-> | Hn]; [by destruct (Hfails train) |].
    simpl. exists AssertionError. done.
  - exists e. done.
Qed.

Lemma failure_on_train_hides_the_other_files_witness :
  ∃ e, TripleSource_init train_failing_reader "triples" "hrt" " " = Raise e ∧
       TripleSource_init train_failing_reader_with_files "triples" "hrt" " "
       = Raise e ∧
       (∀ train n, train_failing_reader (path_join "triples" TRAIN_FILENAME)
                     "hrt" " " = Ok (train, n) → e = AssertionError).
Proof.
  apply (failure_on_train_hides_the_other_files
           train_failing_reader train_failing_reader_with_files
           "triples" "hrt" " "); [reflexivity |].
  intros train. discriminate.
Defined.

(** ** expand_triple_to_sets: bounds *)

(** X5. A negative number of expansions is refused: with a valid target and
    fields that fit [int64], [expand_triple_to_sets] raises the [ValueError]
    of [np.tile] instead of returning empty arrays. *)
Theorem expand_triple_to_sets_negative_count
    (h r t N : Z) (target : TripleElement) :
  N < 0 →
  (target ≠ HEAD → np.fits_int64 h = true) →
  (target ≠ RELATION → np.fits_int64 r = true) →
  (target ≠ TAIL → np.fits_int64 t = true) →
  expand_triple_to_sets (h, r, t) N (VElement target)
  = Raise (ValueError NegativeDimensions).
Proof.
  intros HN Hh Hr Ht. unfold expand_triple_to_sets.
  destruct target; simpl.
  - by rewrite (tiled_negative r) by auto.
  - by rewrite (tiled_negative h) by auto.
  - by rewrite (tiled_negative h) by auto.
Qed.

Lemma expand_triple_to_sets_negative_count_witness :
  expand_triple_to_sets (1, 1, 2) (-1) (VElement TAIL)
  = Raise (ValueError NegativeDimensions).
Proof.
  apply (expand_triple_to_sets_negative_count 1 1 2 (-1) TAIL);
    [lia | done ..].
Defined.

(** X6. A field that is tiled must fit [int64]: for [N >= 0] and a valid
    target, a field other than the target's that lies outside the range
    makes [expand_triple_to_sets] raise [OverflowError]. *)
Theorem expand_triple_to_sets_field_out_of_range
    (h r t N : Z) (target : TripleElement) :
  0 ≤ N →
  (target ≠ HEAD ∧ np.fits_int64 h = false) ∨
  (target ≠ RELATION ∧ np.fits_int64 r = false) ∨
  (target ≠ TAIL ∧ np.fits_int64 t = false) →
  expand_triple_to_sets (h, r, t) N (VElement target) = Raise OverflowError.
Proof.
  intros HN Hout. unfold expand_triple_to_sets.
  destruct target; simpl.
  - destruct (np.fits_int64 r) eqn:Hr.
    + rewrite (tiled_Ok r) by done; simpl.
      rewrite (tiled_overflow t); [done |].
      destruct Hout as [[? _] | [[_ ?] | [_ ?]]]; congruence.
    + by rewrite (tiled_overflow r).
  - destruct (np.fits_int64 h) eqn:Hh.
    + rewrite (tiled_Ok h) by done; simpl.
      rewrite (tiled_overflow t); [done |].
      destruct Hout as [[_ ?] | [[? _] | [_ ?]]]; congruence.
    + by rewrite (tiled_overflow h).
  - destruct (np.fits_int64 h) eqn:Hh.
    + rewrite (tiled_Ok h) by done; simpl.
      rewrite (tiled_overflow r); [done |].
      destruct Hout as [[_ ?] | [[_ ?] | [? _]]]; congruence.
    + by rewrite (tiled_overflow h).
Qed.

Lemma expand_triple_to_sets_field_out_of_range_witness :
  expand_triple_to_sets (1, 2 ^ 63, 2) 3 (VElement HEAD) = Raise OverflowError.
Proof.
  apply (expand_triple_to_sets_field_out_of_range 1 (2 ^ 63) 2 3 HEAD);
    [lia |].
  right; left. split; [discriminate | reflexivity].
Defined.

(** ** TripleIndexBatchSampler: the chunks, restarts and bad batch sizes *)

Lemma drain_with_batch_size_zero {D : Type} `{Len D} (dataset : D) (fuel : nat) :
  0 < len dataset →
  TripleIndexBatchSampler.iterate fuel
    (TripleIndexBatchSampler.__init__ dataset 0)
  = (replicate fuel [], TripleIndexBatchSampler.StillRunning,
     TripleIndexBatchSampler.__iter__
       (TripleIndexBatchSampler.__init__ dataset 0)).
Proof.
  intros HL. unfold TripleIndexBatchSampler.iterate.
  set (self := TripleIndexBatchSampler.__iter__
                 (TripleIndexBatchSampler.__init__ dataset 0)).
  assert (TripleIndexBatchSampler.__next__ self = (Ok [], self)) as Hnext.
  { unfold TripleIndexBatchSampler.__next__; simpl.
    by destruct (Z.ltb_spec (0 + 0) (len dataset)); [| lia]. }
  induction fuel as [| fuel IH]; [done |].
  change (TripleIndexBatchSampler.drain (S fuel) self)
    with (match TripleIndexBatchSampler.__next__ self with
          | (Ok batch, self') =>
              let '(batches, e, final) :=
                TripleIndexBatchSampler.drain fuel self' in
              (batch :: batches, e, final)
          | (Raise StopIteration, self') =>
              ([], TripleIndexBatchSampler.Exhausted, self')
          | (Raise e, self') => ([], TripleIndexBatchSampler.Failed e, self')
          end).
  by rewrite Hnext, IH.
Qed.

Section SamplerMore.

Context {D : Type} `{Len D}.

Local Abbreviation sampler := (TripleIndexBatchSampler.t D).
Local Abbreviation next := (TripleIndexBatchSampler.__next__ (D := D)).
Local Abbreviation drain := (TripleIndexBatchSampler.drain (D := D)).
Local Abbreviation iterate := (TripleIndexBatchSampler.iterate (D := D)).
Local Abbreviation new := (TripleIndexBatchSampler.__init__ (D := D)).
Local Abbreviation iter := (TripleIndexBatchSampler.__iter__ (D := D)).

(** Chunk [k] of the rest of an iteration from cursor [c]. *)
Lemma drain_chunk fuel : ∀ (self : sampler) c L B k chunk,
  iterating self c L B → 0 < B → 0 ≤ c ≤ L →
  (Z.to_nat (L - c) < fuel)%nat →
  (drain fuel self).1.1 !! k = Some chunk →
  chunk = seqZ (c + Z.of_nat k * B) (Z.min B (L - (c + Z.of_nat k * B))).
Proof.
  induction fuel as [| fuel IH]; intros self c L B k chunk Hself HB Hc Hfuel;
    [lia |].
  simpl.
  destruct (decide (c + B < L)) as [Hfull | Hnotfull];
    [| destruct (decide (c < L)) as [Hlast | Hdone]].
  - rewrite (next_full _ _ _ _ Hself HB Hfull).
    specialize (IH _ (c + B) L B (Nat.pred k) chunk
                  (iterating_set_cursor _ _ _ _ (c + B) Hself) HB).
    destruct (drain fuel _) as [[chunks e] final]; simpl in *.
    destruct k as [| k]; simpl.
    + intros [= <-]. f_equal; lia.
    + intros Hk. rewrite (IH ltac:(lia) ltac:(lia) Hk). f_equal; lia.
  - rewrite (next_last _ _ _ _ Hself HB Hlast ltac:(lia)).
    destruct (drain_rest fuel _ L L B
                (iterating_set_cursor _ _ _ _ L Hself) HB)
      as (chunks & final & Hdrain & _ & Hlen & _); [lia | lia |].
    rewrite Hdrain; simpl.
    replace (L - L + B - 1) with (B - 1) in Hlen by lia.
    rewrite Z.div_small in Hlen by lia.
    destruct chunks; [| simpl in Hlen; lia].
    destruct k as [| k]; simpl; [| done].
    intros [= <-]. f_equal; lia.
  - rewrite (next_stop _ _ _ _ Hself ltac:(lia) ltac:(lia)). done.
Qed.

(** X7. With a batch size [B > 0], chunk number [k] of a loop over [L]
    items is the run of indexes from [k * B], of [B] items or of the
    [L - k * B] that are left: every chunk but the last is full, and no
    chunk is empty. *)
Theorem sampler_chunk_is_a_run_from_a_multiple_of_the_batch_size
    (dataset : D) (B : Z) (fuel k : nat) (chunk : list Z) :
  0 < B → (Z.to_nat (len dataset) < fuel)%nat → 0 ≤ len dataset →
  (iterate fuel (new dataset B)).1.1 !! k = Some chunk →
  chunk = seqZ (Z.of_nat k * B) (Z.min B (len dataset - Z.of_nat k * B)) ∧
  Z.of_nat k * B < len dataset.
Proof.
  intros HB Hfuel HL Hk. unfold TripleIndexBatchSampler.iterate in Hk.
  assert (iterating (iter (new dataset B)) 0 (len dataset) B) as Hself by done.
  pose proof (drain_chunk fuel _ 0 (len dataset) B k chunk Hself HB
                ltac:(lia) ltac:(lia) Hk) as Hchunk.
  rewrite Z.add_0_l in Hchunk. split; [done |].
  destruct (drain_rest fuel _ 0 (len dataset) B Hself HB)
    as (chunks & final & Hdrain & _ & _ & Hall & _); [lia | lia |].
  rewrite Hdrain in Hk; simpl in Hk.
  rewrite Forall_forall in Hall.
  assert (0 < Z.of_nat (length chunk) ≤ B) as [Hpos _]
    by (apply Hall, list_elem_of_lookup; eauto).
  rewrite Hchunk, length_seqZ in Hpos. lia.
Qed.

(** A call of [__next__] leaves the dataset and the batch size alone. *)
Lemma next_keeps_settings (self : sampler) :
  TripleIndexBatchSampler.dataset (next self).2
  = TripleIndexBatchSampler.dataset self ∧
  TripleIndexBatchSampler.batch_size (next self).2
  = TripleIndexBatchSampler.batch_size self.
Proof.
  unfold TripleIndexBatchSampler.__next__.
  repeat (case_match; simpl; try done).
Qed.

Lemma drain_keeps_settings fuel : ∀ self : sampler,
  TripleIndexBatchSampler.dataset (drain fuel self).2
  = TripleIndexBatchSampler.dataset self ∧
  TripleIndexBatchSampler.batch_size (drain fuel self).2
  = TripleIndexBatchSampler.batch_size self.
Proof.
  induction fuel as [| fuel IH]; intros self; [done |]. simpl.
  pose proof (next_keeps_settings self) as Hnext.
  destruct (next self) as [[batch | e] self']; simpl in *.
  - specialize (IH self').
    destruct (drain fuel self') as [[chunks e] final]; simpl in *.
    destruct IH, Hnext; split; congruence.
  - by destruct e.
Qed.

(** X8. A sampler can be looped over again: wherever an earlier loop went,
    finished or given up after some batches, a new loop over the same
    sampler starts from index 0 and behaves as the first did. *)
Theorem sampler_restarts_from_zero (self : sampler) (fuel fuel' : nat) :
  iterate fuel' (iterate fuel self).2 = iterate fuel' self.
Proof.
  unfold TripleIndexBatchSampler.iterate.
  destruct (drain_keeps_settings fuel (iter self)) as [Hd HB].
  assert (iter (drain fuel (iter self)).2 = iter self) as ->; [| done].
  unfold TripleIndexBatchSampler.__iter__ at 1 3.
  by rewrite Hd, HB.
Qed.

(** X9. A batch size of 0 over a dataset that is not empty never ends the
    loop: every call of [__next__] returns an empty batch and leaves the
    cursor at 0. *)
Theorem sampler_with_batch_size_zero_never_ends (dataset : D) (fuel : nat) :
  0 < len dataset →
  iterate fuel (new dataset 0)
  = (replicate fuel [], TripleIndexBatchSampler.StillRunning,
     iter (new dataset 0)).
Proof.
  intros HL. unfold TripleIndexBatchSampler.iterate.
  assert (next (iter (new dataset 0)) = (Ok [], iter (new dataset 0)))
    as Hnext.
  { unfold TripleIndexBatchSampler.__next__; simpl.
    by destruct (Z.ltb_spec (0 + 0) (len dataset)); [| lia]. }
  induction fuel as [| fuel IH]; [done |].
  change (drain (S fuel) (iter (new dataset 0)))
    with (match next (iter (new dataset 0)) with
          | (Ok batch, self') =>
              let '(batches, e, final) := drain fuel self' in
              (batch :: batches, e, final)
          | (Raise StopIteration, self') =>
              ([], TripleIndexBatchSampler.Exhausted, self')
          | (Raise e, self') => ([], TripleIndexBatchSampler.Failed e, self')
          end).
  by rewrite Hnext, IH.
Qed.

(** X10. A negative batch size makes the first call of [__next__] raise the
    [ValueError] of [np.empty]: the loop fails before any batch, also over
    an empty dataset. *)
Theorem sampler_with_negative_batch_size_fails
    (dataset : D) (B : Z) (fuel : nat) :
  B < 0 → 0 ≤ len dataset →
  iterate (S fuel) (new dataset B)
  = ([], TripleIndexBatchSampler.Failed (ValueError NegativeDimensions),
     iter (new dataset B)).
Proof.
  intros HB HL. unfold TripleIndexBatchSampler.iterate.
  assert (next (iter (new dataset B))
          = (Raise (ValueError NegativeDimensions), iter (new dataset B)))
    as Hnext.
  { unfold TripleIndexBatchSampler.__next__, np.empty; simpl.
    destruct (Z.ltb_spec (0 + B) (len dataset)); [| lia].
    destruct (Z.ltb_spec B 0); [done | lia]. }
  simpl. by rewrite Hnext.
Qed.

(** X11. Over an empty dataset the loop ends at once, without a batch,
    whatever the batch size from 0 up. *)
Theorem sampler_over_empty_dataset_yields_nothing
    (dataset : D) (B : Z) (fuel : nat) :
  len dataset = 0 → 0 ≤ B →
  iterate (S fuel) (new dataset B)
  = ([], TripleIndexBatchSampler.Exhausted, iter (new dataset B)).
Proof.
  intros HL HB. unfold TripleIndexBatchSampler.iterate.
  assert (next (iter (new dataset B))
          = (Raise StopIteration, iter (new dataset B))) as Hnext.
  { unfold TripleIndexBatchSampler.__next__; simpl. rewrite HL.
    destruct (Z.ltb_spec (0 + B) 0); [lia | done]. }
  simpl. by rewrite Hnext.
Qed.

End SamplerMore.

Lemma sampler_chunk_is_a_run_from_a_multiple_of_the_batch_size_witness :
  [4] = seqZ (Z.of_nat 2 * 2) (Z.min 2 (len example_dataset - Z.of_nat 2 * 2)) ∧
  Z.of_nat 2 * 2 < len example_dataset.
Proof.
  apply (sampler_chunk_is_a_run_from_a_multiple_of_the_batch_size
           example_dataset 2 6 2 [4]);
    [lia | vm_compute; lia | vm_compute; discriminate | reflexivity].
Defined.

Lemma sampler_with_batch_size_zero_never_ends_witness :
  TripleIndexBatchSampler.iterate 4
    (TripleIndexBatchSampler.__init__ example_dataset 0)
  = ([[]; []; []; []], TripleIndexBatchSampler.StillRunning,
     TripleIndexBatchSampler.__iter__
       (TripleIndexBatchSampler.__init__ example_dataset 0)).
Proof.
  apply (sampler_with_batch_size_zero_never_ends example_dataset 4).
  reflexivity.
Defined.

Lemma sampler_with_negative_batch_size_fails_witness :
  TripleIndexBatchSampler.iterate 1
    (TripleIndexBatchSampler.__init__ example_dataset (-2))
  = ([], TripleIndexBatchSampler.Failed (ValueError NegativeDimensions),
     TripleIndexBatchSampler.__iter__
       (TripleIndexBatchSampler.__init__ example_dataset (-2))).
Proof.
  apply (sampler_with_negative_batch_size_fails example_dataset (-2) 0);
    [lia | vm_compute; discriminate].
Defined.

Lemma sampler_over_empty_dataset_yields_nothing_witness :
  TripleIndexBatchSampler.iterate 1
    (TripleIndexBatchSampler.__init__ (@nil Z) 3)
  = ([], TripleIndexBatchSampler.Exhausted,
     TripleIndexBatchSampler.__iter__
       (TripleIndexBatchSampler.__init__ (@nil Z) 3)).
Proof.
  apply (sampler_over_empty_dataset_yields_nothing (@nil Z) 3 0);
    [reflexivity | lia].
Defined.

(** ** TripleIndexesDataset: items *)

Lemma list_getitem_in_range {A} (l : list A) (i : nat) :
  list_getitem l (Z.of_nat i) = l !! i.
Proof.
  unfold list_getitem.
  destruct (Z.leb_spec 0 (Z.of_nat i)); [| lia].
  by rewrite Nat2Z.id.
Qed.

Lemma list_getitem_negative {A} (l : list A) (i : nat) :
  (0 < i ≤ length l)%nat →
  list_getitem l (- Z.of_nat i) = l !! (length l - i)%nat.
Proof.
  intros Hi. unfold list_getitem.
  destruct (Z.leb_spec 0 (- Z.of_nat i)); [lia |].
  destruct (Z.leb_spec (- Z.of_nat (length l)) (- Z.of_nat i)); [| lia].
  f_equal. lia.
Qed.

Lemma list_getitem_out_of_range {A} (l : list A) (idx : Z) :
  idx < - Z.of_nat (length l) ∨ Z.of_nat (length l) ≤ idx →
  list_getitem l idx = None.
Proof.
  intros Hidx. unfold list_getitem.
  destruct (Z.leb_spec 0 idx).
  - apply lookup_ge_None. lia.
  - destruct (Z.leb_spec (- Z.of_nat (length l)) idx); [lia | done].
Qed.

Lemma mapM_getitem_range {A B} (f : Z → option B) (g : A → B) (l : list A) :
  (∀ (i : nat) x, l !! i = Some x → f (Z.of_nat i) = Some (g x)) →
  mapM f (seqZ 0 (Z.of_nat (length l))) = Some (g <$> l).
Proof.
  intros Hf. apply mapM_Some.
  apply Forall2_same_length_lookup_2.
  - by rewrite length_seqZ, length_fmap, Nat2Z.id.
  - intros i x y Hx Hy.
    apply lookup_seqZ in Hx as [-> Hi].
    apply list_lookup_fmap_Some in Hy as (a & -> & Ha).
    rewrite Z.add_0_l. by apply Hf.
Qed.

Section DatasetItemsFacts.

Context {T : Type} `{Len T} {R : Type}.
Variable transformed_getitem : T → Z → option R.

(** X12. Without a transform, one loop of the sampler over the dataset of a
    type fetches every triple of the set of that type exactly once, in the
    order of the set: no index it yields is out of range, and none is
    missed. *)
Theorem one_loop_fetches_every_triple_in_order
    (triple_source : TripleSource) (d : DatasetType) (B : Z) (fuel : nat) :
  0 < B → (length (set_of_type triple_source d) < fuel)%nat →
  ∃ dataset chunks final,
    TripleIndexesDataset_init (T := T) triple_source (VDatasetType d) None
    = Ok dataset ∧
    TripleIndexBatchSampler.iterate fuel
      (TripleIndexBatchSampler.__init__ dataset B)
    = (chunks, TripleIndexBatchSampler.Exhausted, final) ∧
    mapM (TripleIndexesDataset_getitem transformed_getitem dataset)
      (mjoin chunks)
    = Some (TripleSample <$> set_of_type triple_source d).
Proof.
  intros HB Hfuel.
  set (l := set_of_type triple_source d) in *.
  exists {| triples := Plain l; transform := None |}.
  set (dataset := {| triples := Plain l; transform := None |}).
  assert (len dataset = Z.of_nat (length l)) as Hlen by done.
  assert (iterating (TripleIndexBatchSampler.__iter__
                       (TripleIndexBatchSampler.__init__ dataset B))
            0 (len dataset) B) as Hself by done.
  destruct (drain_rest fuel _ 0 (len dataset) B Hself HB)
    as (chunks & final & Hdrain & Hjoin & _); [lia | lia |].
  exists chunks, final.
  split; [by destruct d |]. split; [done |].
  rewrite Hjoin, Z.sub_0_r, Hlen.
  apply mapM_getitem_range. intros i x Hx.
  unfold TripleIndexesDataset_getitem; simpl.
  by rewrite list_getitem_in_range, Hx.
Qed.

End DatasetItemsFacts.

Lemma one_loop_fetches_every_triple_in_order_witness :
  ∃ dataset chunks final,
    TripleIndexesDataset_init (T := list TripleIndex) example_store
      (VDatasetType TRAINING) None = Ok dataset ∧
    TripleIndexBatchSampler.iterate 3
      (TripleIndexBatchSampler.__init__ dataset 1)
    = (chunks, TripleIndexBatchSampler.Exhausted, final) ∧
    mapM (TripleIndexesDataset_getitem (R := TripleIndex) list_getitem dataset)
      (mjoin chunks)
    = Some (TripleSample <$> set_of_type example_store TRAINING).
Proof.
  apply (one_loop_fetches_every_triple_in_order (T := list TripleIndex)
           list_getitem example_store TRAINING 1 3); [lia | simpl; lia].
Defined.

(** ** create_dataloader: what reaches the sampler *)

Section DataloaderMore.

Context {T : Type} `{Len T} {DataLoader : Type}.
Variable ordered : string → list TripleIndex → result T.
Variable torch_DataLoader : DataLoaderArgs (T := T) → result DataLoader.

(** The sampler and the dataset a training dataloader is built from. *)
Lemma dataloader_args_training_sampler triple_source config collates_label x :
  ordered (triple_order config) (train_set triple_source) = Ok x →
  ∃ args,
    dataloader_args ordered triple_source config collates_label
      (VDatasetType TRAINING) = Ok args ∧
    triples (loader_dataset args) = Transformed x ∧
    batch_sampler args
    = TripleIndexBatchSampler.__init__ (loader_dataset args)
        (batch_size config).
Proof.
  intros Hx. unfold dataloader_args.
  rewrite (dataset_init_member _ triple_source TRAINING _ x Hx); simpl.
  eexists. split; [done |]. done.
Qed.

(** X13. A dataset type that is none of [TRAINING], [VALIDATION] and
    [TESTING] makes [create_dataloader] raise the [RuntimeError] of the
    dataset, whatever the configuration and the transform: nothing is handed
    to torch. *)
Theorem create_dataloader_rejects_other_dataset_types
    (triple_source : TripleSource) (config : Config) (collates_label : bool)
    (dataset_type : value) :
  (∀ d : DatasetType, dataset_type ≠ VDatasetType d) →
  create_dataloader ordered torch_DataLoader triple_source config
    collates_label dataset_type
  = Raise (RuntimeError DatasetTypeDoesntExist).
Proof.
  intros Hother. unfold create_dataloader, dataloader_args.
  by rewrite dataset_init_other.
Qed.

(** X14. The batches of a training dataloader index what the transform
    returned: with a batch size above 0, one loop of its sampler yields
    every index below the length of the transformed triples once, in
    ascending order, in chunks of at most [config.batch_size]. *)
Theorem training_batches_cover_the_transformed_triples
    (triple_source : TripleSource) (config : Config) (collates_label : bool)
    (x : T) (fuel : nat) :
  ordered (triple_order config) (train_set triple_source) = Ok x →
  0 < batch_size config → 0 ≤ len x → (Z.to_nat (len x) < fuel)%nat →
  ∃ args chunks final,
    dataloader_args ordered triple_source config collates_label
      (VDatasetType TRAINING) = Ok args ∧
    TripleIndexBatchSampler.iterate fuel (batch_sampler args)
    = (chunks, TripleIndexBatchSampler.Exhausted, final) ∧
    mjoin chunks = seqZ 0 (len x) ∧
    Forall (λ chunk, 0 < Z.of_nat (length chunk) ≤ batch_size config) chunks.
Proof.
  intros Hx HB HL Hfuel.
  destruct (dataloader_args_training_sampler triple_source config
              collates_label x Hx) as (args & Hargs & Htriples & Hsampler).
  assert (len (loader_dataset args) = len x) as Hlen.
  { unfold len at 1, dataset_len. by rewrite Htriples. }
  assert (iterating (TripleIndexBatchSampler.__iter__ (batch_sampler args))
            0 (len x) (batch_size config)) as Hself.
  { rewrite Hsampler. repeat split; simpl. by rewrite Hlen. }
  destruct (drain_rest fuel _ 0 (len x) (batch_size config) Hself HB)
    as (chunks & final & Hdrain & Hjoin & _ & Hall & _); [lia | lia |].
  exists args, chunks, final.
  rewrite Z.sub_0_r in Hjoin. done.
Qed.

(** X15. The batch size of a training dataloader is [config.batch_size] as
    it is, without the minimum of 1 that validation and testing get: with a
    batch size of 0 and transformed triples that are not empty, the sampler
    of the dataloader yields empty batches without end. *)
Theorem training_batch_size_zero_never_ends
    (triple_source : TripleSource) (config : Config) (collates_label : bool)
    (x : T) (fuel : nat) :
  ordered (triple_order config) (train_set triple_source) = Ok x →
  batch_size config = 0 → 0 < len x →
  ∃ args final,
    dataloader_args ordered triple_source config collates_label
      (VDatasetType TRAINING) = Ok args ∧
    TripleIndexBatchSampler.batch_size (batch_sampler args) = 0 ∧
    TripleIndexBatchSampler.iterate fuel (batch_sampler args)
    = (replicate fuel [], TripleIndexBatchSampler.StillRunning, final).
Proof.
  intros Hx HB HL.
  destruct (dataloader_args_training_sampler triple_source config
              collates_label x Hx) as (args & Hargs & Htriples & Hsampler).
  assert (len (loader_dataset args) = len x) as Hlen.
  { unfold len at 1, dataset_len. by rewrite Htriples. }
  exists args. eexists. split; [done |].
  rewrite Hsampler, HB. split; [done |].
  apply drain_with_batch_size_zero. by rewrite Hlen.
Qed.

(** X16. A load factor that is not a finite number leaves validation and
    testing without a dataloader: the conversion of the scaled batch size to
    an integer raises, [ValueError] for NaN and [OverflowError] for an
    infinity or a batch size too large for a float. *)
Theorem evaluation_with_non_finite_load_factor_fails
    (triple_source : TripleSource) (config : Config) (collates_label : bool)
    (d : DatasetType) (x : T) (f : spec_float) :
  d ≠ TRAINING →
  ordered (triple_order config) (set_of_type triple_source d) = Ok x →
  evaluation_load_factor config = PyFloat f →
  (f = S754_nan ∨ ∃ sign, f = S754_infinity sign) →
  ∃ e, create_dataloader ordered torch_DataLoader triple_source config
         collates_label (VDatasetType d) = Raise e ∧
       (e = ValueError FloatNaN ∨ e = OverflowError).
Proof.
  intros Hd Hx Hfactor Hf.
  assert (∃ e, scaled_batch_size config = Raise e ∧
               (e = ValueError FloatNaN ∨ e = OverflowError))
    as (e & Hscaled & He).
  { unfold scaled_batch_size, int_mul, Float64.of_int. rewrite Hfactor.
    destruct (binary_normalize Float64.prec Float64.emax (batch_size config)
                0 false) as [s | s | | s m ex]; simpl;
      destruct Hf as [-> | [sign ->]]; simpl; eauto. }
  exists e. split; [| done].
  unfold create_dataloader.
  by rewrite (dataloader_args_evaluation_fails ordered triple_source config
                collates_label d x e Hd Hx Hscaled).
Qed.

End DataloaderMore.

Lemma create_dataloader_rejects_other_dataset_types_witness :
  create_dataloader identity_transform (λ args, Ok args) example_store
    example_config false (VStr "training")
  = Raise (RuntimeError DatasetTypeDoesntExist).
Proof.
  apply (create_dataloader_rejects_other_dataset_types
           identity_transform (λ args, Ok args) example_store example_config
           false (VStr "training")).
  intros d. discriminate.
Defined.

Lemma training_batches_cover_the_transformed_triples_witness :
  ∃ args chunks final,
    dataloader_args identity_transform example_store example_config true
      (VDatasetType TRAINING) = Ok args ∧
    TripleIndexBatchSampler.iterate 3 (batch_sampler args)
    = (chunks, TripleIndexBatchSampler.Exhausted, final) ∧
    mjoin chunks = seqZ 0 (len example_train) ∧
    Forall (λ chunk, 0 < Z.of_nat (length chunk) ≤ batch_size example_config)
      chunks.
Proof.
  apply (training_batches_cover_the_transformed_triples
           identity_transform example_store example_config true
           example_train 3);
    [reflexivity | reflexivity | vm_compute; discriminate | vm_compute; lia].
Defined.

Lemma training_batch_size_zero_never_ends_witness :
  ∃ args final,
    dataloader_args identity_transform example_store zero_batch_config true
      (VDatasetType TRAINING) = Ok args ∧
    TripleIndexBatchSampler.batch_size (batch_sampler args) = 0 ∧
    TripleIndexBatchSampler.iterate 4 (batch_sampler args)
    = (replicate 4 [], TripleIndexBatchSampler.StillRunning, final).
Proof.
  apply (training_batch_size_zero_never_ends
           identity_transform example_store zero_batch_config true
           example_train 4); reflexivity.
Defined.

Lemma evaluation_with_non_finite_load_factor_fails_witness :
  ∃ e, create_dataloader identity_transform (λ args, Ok args) example_store
         nan_factor_config false (VDatasetType VALIDATION) = Raise e ∧
       (e = ValueError FloatNaN ∨ e = OverflowError).
Proof.
  apply (evaluation_with_non_finite_load_factor_fails
           identity_transform (λ args, Ok args) example_store
           nan_factor_config false VALIDATION example_valid S754_nan);
    [discriminate | reflexivity | reflexivity | by left].
Defined.

(** ** get_triples_from_batch: when the unpacking fails *)

(** X17. On a batch with rows but without samples, of whatever width, the
    call itself returns its generator, one item per element, and the first
    item taken from it raises the [ValueError] of [reshape]: the failure
    shows only where the result is unpacked. *)
Theorem get_triples_from_batch_without_samples_fails_when_unpacked
    (batch : np.ndarray) (b e : Z) :
  np.shape batch = [b; 0; e] → 1 ≤ b → 1 ≤ e →
  ∃ g, get_triples_from_batch batch = Ok g ∧
       Z.of_nat (length g) = e ∧
       consume g = Raise (ValueError CannotReshape).
Proof.
  intros Hshape Hb He.
  unfold get_triples_from_batch, np.unpack3, np.split_axis2.
  rewrite Hshape; simpl.
  destruct (Z.eqb_spec e 0); [lia |]; simpl.
  eexists. split; [done |].
  split; [rewrite !length_fmap, length_seq; lia |].
  destruct (Z.to_nat e) as [| k] eqn:Hk; [lia |].
  simpl. unfold np.reshape; simpl.
  rewrite Z.mul_0_r; simpl.
  destruct (Z.eqb_spec (b * 1) (Z.of_nat 0)); [lia |].
  by rewrite andb_false_r.
Qed.

Lemma get_triples_from_batch_without_samples_fails_when_unpacked_witness :
  ∃ g, get_triples_from_batch no_sample_batch = Ok g ∧
       Z.of_nat (length g) = 3 ∧
       consume g = Raise (ValueError CannotReshape).
Proof.
  apply (get_triples_from_batch_without_samples_fails_when_unpacked
           no_sample_batch 2 3); [reflexivity | lia | lia].
Defined.

(** ** sieve_and_expand_triple in other namespaces *)

(** X18. In whatever namespace the function runs, it returns a result only
    if that namespace binds [batch] to an array of three dimensions whose
    last one is not 0, though nothing of the result comes from that array. *)
Theorem sieve_and_expand_triple_returns_only_with_a_batch
    (globals : gmap string np.ndarray) (triple_source : TripleSource)
    (entities relations : gmap string Z) (head relation tail : string)
    (q : query_result) :
  sieve_and_expand_triple_in globals triple_source entities relations
    head relation tail = Ok q →
  ∃ batch b s e,
    globals !! "batch" = Some batch ∧ np.shape batch = [b; s; e] ∧ e ≠ 0.
Proof.
  unfold sieve_and_expand_triple_in, load_global.
  destruct (globals !! "batch") as [batch |]; simpl; [| done].
  unfold np.unpack3.
  destruct (np.shape batch) as [| b [| s [| e [| ? ?]]]] eqn:Hshape;
    simpl; try done.
  unfold np.split_axis2.
  destruct (Z.eqb_spec e 0); simpl; [done |].
  intros _. by exists batch, b, s, e.
Qed.

Lemma example_query_in_namespace :
  sieve_and_expand_triple_in globals_with_batch example_store
    example_entities example_relations "?" "r" "b"
  = Ok ((seqZ 0 3, replicate 3 1, replicate 3 2), HEAD_KEY,
        Build_TripleIndex (-1) 1 2).
Proof.
  apply (sieve_head_query globals_with_batch example_batch 2 2 3); done.
Qed.

Lemma sieve_and_expand_triple_returns_only_with_a_batch_witness :
  ∃ batch b s e,
    globals_with_batch !! "batch" = Some batch ∧
    np.shape batch = [b; s; e] ∧ e ≠ 0.
Proof.
  apply (sieve_and_expand_triple_returns_only_with_a_batch
           globals_with_batch example_store example_entities
           example_relations "?" "r" "b" _ example_query_in_namespace).
Defined.

(** X19. Where [batch] is bound, a query without a placeholder raises the
    [RuntimeError] on known fields, but a query with more than one does not:
    the first placeholder, head before relation before tail, is taken as the
    unknown and the next one is looked up as a name, which raises [KeyError]
    when no entity or relation is called "?". *)
Theorem more_than_one_placeholder_is_looked_up_as_a_name
    (globals : gmap string np.ndarray) (batch : np.ndarray) (b s e : Z)
    (triple_source : TripleSource) (entities relations : gmap string Z) :
  globals !! "batch" = Some batch → np.shape batch = [b; s; e] → e ≠ 0 →
  entities !! "?" = None → relations !! "?" = None →
  (∀ tail,
     sieve_and_expand_triple_in globals triple_source entities relations
       "?" "?" tail = Raise (KeyError "?")) ∧
  (∀ relation r, relations !! relation = Some r →
     sieve_and_expand_triple_in globals triple_source entities relations
       "?" relation "?" = Raise (KeyError "?")) ∧
  (∀ head h, head ≠ "?" → entities !! head = Some h →
     sieve_and_expand_triple_in globals triple_source entities relations
       head "?" "?" = Raise (KeyError "?")) ∧
  (∀ head relation tail, head ≠ "?" → relation ≠ "?" → tail ≠ "?" →
     sieve_and_expand_triple_in globals triple_source entities relations
       head relation tail = Raise (RuntimeError AllKnown)).
Proof.
  intros Hbatch Hshape He Hentity Hrelation.
  split; [| split; [| split]].
  - intros tail. unfold sieve_and_expand_triple_in, load_global, np.unpack3,
      np.split_axis2, getitem.
    rewrite Hbatch; simpl. rewrite Hshape; simpl.
    destruct (Z.eqb_spec e 0); [done |]; simpl.
    by rewrite Hrelation.
  - intros relation r Hr.
    by apply (sieve_two_placeholders globals batch b s e) with (r := r).
  - intros head h Hhead Hh.
    unfold sieve_and_expand_triple_in, load_global, np.unpack3,
      np.split_axis2, getitem.
    rewrite Hbatch; simpl. rewrite Hshape; simpl.
    destruct (Z.eqb_spec e 0); [done |]; simpl.
    rewrite bool_decide_eq_false_2 by done. simpl.
    by rewrite Hh, Hentity.
  - intros head relation tail ? ? ?.
    by apply (sieve_all_known globals batch b s e).
Qed.

Lemma more_than_one_placeholder_is_looked_up_as_a_name_witness :
  sieve_and_expand_triple_in globals_with_batch example_store
    example_entities example_relations "?" "r" "?" = Raise (KeyError "?") ∧
  sieve_and_expand_triple_in globals_with_batch example_store
    example_entities example_relations "a" "r" "b"
  = Raise (RuntimeError AllKnown).
Proof.
  assert (example_entities !! "?" = None) as Hentity.
  { unfold example_entities. rewrite lookup_insert_ne by done.
    by apply lookup_singleton_ne. }
  assert (example_relations !! "?" = None) as Hrelation
    by (by apply lookup_singleton_ne).
  destruct (more_than_one_placeholder_is_looked_up_as_a_name
              globals_with_batch example_batch 2 2 3 example_store
              example_entities example_relations
              (lookup_singleton_eq _ _) eq_refl ltac:(discriminate)
              Hentity Hrelation) as (_ & Htwo & _ & Hnone).
  split.
  - apply (Htwo "r" 1). apply lookup_singleton_eq.
  - by apply Hnone.
Defined.

(** ** convert_triple_tuple_to_torch *)

Lemma mapM_all_Ok {A B} (f : A → B) (l : list A) :
  mapM (λ x, Ok (f x)) l = Ok (f <$> l).
Proof.
  induction l as [| x l IH]; [done |]. simpl.
  change (list_fmap A B f l) with (f <$> l).
  by rewrite IH.
Qed.

(** X20. An override that is given decides alone where the tensors go,
    [False] included, and the configuration decides when the override is
    [None].  With the flag off, the conversion cannot fail, whatever the
    machine: each array becomes a tensor on the CPU that tracks no
    gradient, in the order of the batch.  With the flag on, each of these
    tensors is moved in turn, and the first failure of the move is
    raised. *)
Theorem conversion_follows_the_override_before_the_configuration
    (cuda : torch.Tensor → result torch.Tensor)
    (batch : list np.ndarray) (config : Config) (override : option bool) :
  (effective_cuda config override = false →
   convert_triple_tuple_to_torch cuda batch config override
   = Ok (cpu_tensor <$> batch)) ∧
  (effective_cuda config override = true →
   convert_triple_tuple_to_torch cuda batch config override
   = mapM (λ x, cuda (cpu_tensor x)) batch).
Proof.
  unfold convert_triple_tuple_to_torch, effective_cuda.
  split; intros Hflag.
  - rewrite <- mapM_all_Ok.
    destruct override as [flag |]; simpl in *; subst; simpl;
      unfold _BatchElementConverter_call, np_to_tensor; simpl;
      by try rewrite Hflag.
  - destruct override as [flag |]; simpl in *; subst; simpl;
      unfold _BatchElementConverter_call, np_to_tensor; simpl;
      by try rewrite Hflag.
Qed.

Lemma conversion_follows_the_override_before_the_configuration_witness :
  enable_cuda nan_factor_config = true ∧
  convert_triple_tuple_to_torch no_cuda [example_batch; no_sample_batch]
    nan_factor_config (Some false)
  = Ok [cpu_tensor example_batch; cpu_tensor no_sample_batch].
Proof.
  split; [reflexivity |].
  apply (conversion_follows_the_override_before_the_configuration
           no_cuda [example_batch; no_sample_batch] nan_factor_config
           (Some false)).
  reflexivity.
Defined.
